(** * PDF Splitter Pro: a shallow embedding of the split service, the preview
      component and the application shell, with the properties of the
      specification stated over them.

    JavaScript numbers are embedded as exact numbers: page geometry and
    pointer coordinates as rationals ([Q]), page numbers and percentages
    that the code keeps integral as [Z].  An asynchronous function is
    embedded as its continuations, one transition per resumption, and the
    state updates one continuation or handler makes are one batch.  The
    drag gesture ([isDragging] and the window listeners) is left out; the
    translation of a pointer position into a percentage is
    [PdfPreview.calculatePercentage]. *)

From Stdlib Require Import String Ascii.
From Stdlib Require Import ZArith QArith Qround List Bool Lia.
From Stdlib Require Import DecimalString DecimalPos.
Import ListNotations.

Local Open Scope Z_scope.

(** ** types.ts *)

Inductive SplitOrientation : Type :=
| Vertical
| Horizontal.

Record ProcessingStatus : Type := mkStatus {
  isProcessing : bool;
  status_error : option string;
  successMessage : option string
}.

(** ** services/pdfService: [splitPdfDocument] *)

Module PdfService.

Local Open Scope Q_scope.

(** The page object of the PDF library, reduced to what the service reads
    and writes: the media box, kept as the PDF rectangle
    [llx lly urx ury], and the page's content, which cropping leaves
    alone. *)
Record PDFPage : Type := mkPage {
  llx : Q;
  lly : Q;
  urx : Q;
  ury : Q;
  content : nat
}.

Definition PDFDocument : Type := list PDFPage.

(** [page.getSize()]: width and height of the media box. *)
Definition getSize (p : PDFPage) : Q * Q := (urx p - llx p, ury p - lly p).

(** [page.setMediaBox(x, y, width, height)]. *)
Definition setMediaBox (x y width height : Q) (p : PDFPage) : PDFPage :=
  {| llx := x; lly := y; urx := x + width; ury := y + height;
     content := content p |}.

(** [newDoc.copyPages(originalDoc, [i, j])]: two independent copies; an
    index outside the document is an error. *)
Definition copyPages (src : PDFDocument) (i j : nat) : option (PDFPage * PDFPage) :=
  match nth_error src i, nth_error src j with
  | Some a, Some b => Some (a, b)
  | _, _ => None
  end.

(** [newDoc.addPage(page)] appends. *)
Definition addPage (doc : PDFDocument) (p : PDFPage) : PDFDocument := doc ++ [p].

(** The two [setMediaBox] calls of one loop iteration. *)
Definition cropPair (orientation : SplitOrientation) (percentage : Q)
    (page1 page2 : PDFPage) : PDFPage * PDFPage :=
  let '(width, height) := getSize page1 in
  match orientation with
  | Vertical =>
      let splitX := width * (percentage / 100) in
      (setMediaBox 0 0 splitX height page1,
       setMediaBox splitX 0 (width - splitX) height page2)
  | Horizontal =>
      let splitY := height * (percentage / 100) in
      (setMediaBox 0 splitY width (height - splitY) page1,
       setMediaBox 0 0 width splitY page2)
  end.

(** One iteration of [for (const pageIndex of pageIndices)]; [None] is a
    thrown exception. *)
Definition loopBody (originalDoc : PDFDocument) (orientation : SplitOrientation)
    (percentage : Q) (acc : option PDFDocument) (pageIndex : nat)
    : option PDFDocument :=
  match acc with
  | None => None
  | Some newDoc =>
      match copyPages originalDoc pageIndex pageIndex with
      | None => None
      | Some (page1, page2) =>
          let '(p1, p2) := cropPair orientation percentage page1 page2 in
          Some (addPage (addPage newDoc p1) p2)
      end
  end.

(** [splitPdfDocument], from the loaded original document to the document
    that is saved. *)
Definition splitPdfDocument (originalDoc : PDFDocument)
    (orientation : SplitOrientation) (percentage : Q) : option PDFDocument :=
  let pageCount := List.length originalDoc in
  let pageIndices := seq 0 pageCount in
  fold_left (loopBody originalDoc orientation percentage) pageIndices (Some []).

(** The pair of pages one original page contributes to the output, as a
    list. *)
Definition halves (orientation : SplitOrientation) (percentage : Q)
    (pg : PDFPage) : list PDFPage :=
  let '(p1, p2) := cropPair orientation percentage pg pg in [p1; p2].

End PdfService.

(** ** The browser's [File] object, by identity, name and MIME type. *)

Record File : Type := mkFile {
  file_id : nat;
  file_name : string;
  file_type : string
}.

(** Comparison of two values of a dependency list: by identity. *)
Definition File_same (a b : option File) : bool :=
  match a, b with
  | None, None => true
  | Some x, Some y => Nat.eqb (file_id x) (file_id y)
  | _, _ => false
  end.

(** ** The JavaScript built-ins the components call *)

Module Js.

(** [n.toString()] for an integral number. *)
Definition toString (n : Z) : string := NilZero.string_of_int (Z.to_int n).

Definition isDigit (c : ascii) : bool :=
  let n := nat_of_ascii c in (48 <=? n)%nat && (n <=? 57)%nat.

Definition digitValue (c : ascii) : Z := Z.of_nat (nat_of_ascii c) - 48.

Fixpoint allDigits (s : string) : bool :=
  match s with
  | EmptyString => true
  | String c s' => isDigit c && allDigits s'
  end.

(** [/^\d+$/.test(s)]: one or more characters, each of them 0-9. *)
Definition test_digits (s : string) : bool :=
  match s with
  | EmptyString => false
  | String _ _ => allDigits s
  end.

(** White space that [parseInt] skips, among the code units below 256. *)
Definition isWhiteSpace (c : ascii) : bool :=
  let n := nat_of_ascii c in
  ((9 <=? n)%nat && (n <=? 13)%nat) || (n =? 32)%nat || (n =? 160)%nat.

Fixpoint skipWhiteSpace (s : string) : string :=
  match s with
  | EmptyString => EmptyString
  | String c s' => if isWhiteSpace c then skipWhiteSpace s' else s
  end.

(** The longest prefix of digits, read in base 10; [None] when it is
    empty. *)
Fixpoint readDigits (s : string) (acc : option Z) : option Z :=
  match s with
  | EmptyString => acc
  | String c s' =>
      if isDigit c
      then readDigits s' (Some (10 * match acc with Some a => a | None => 0 end
                                + digitValue c))
      else acc
  end.

(** [parseInt(s, 10)]; [None] is NaN. *)
Definition parseInt (s : string) : option Z :=
  match skipWhiteSpace s with
  | String "-"%char r => option_map Z.opp (readDigits r None)
  | String "+"%char r => readDigits r None
  | r => readDigits r None
  end.

(** [Math.round]: the integer nearest to [x], a tie going up. *)
Definition Math_round (x : Q) : Z := Qfloor (x + (1 # 2)).

Definition Math_max (a b : Q) : Q := if Qle_bool a b then b else a.

Definition Math_min (a b : Q) : Q := if Qle_bool a b then a else b.

End Js.

(** ** components/PdfPreview *)

Module PdfPreview.

(** The rasterization library's document: an object identity and, per
    page, the width and height of its viewport at scale 1. *)
Record PDFDocumentProxy : Type := mkDoc {
  doc_id : nat;
  pageSizes : list (Q * Q)
}.

Definition numPages (d : PDFDocumentProxy) : Z :=
  Z.of_nat (List.length (pageSizes d)).

(** [doc.getPage(n)]: the page, or a rejection when [n] is no page number
    of the document. *)
Definition getPage (d : PDFDocumentProxy) (n : Z) : option (Q * Q) :=
  if (1 <=? n) && (n <=? numPages d)
  then nth_error (pageSizes d) (Z.to_nat (n - 1))
  else None.

(** Two values of the [pdfDoc] dependency are the same object. *)
Definition Doc_same (a b : option PDFDocumentProxy) : bool :=
  match a, b with
  | None, None => true
  | Some x, Some y => Nat.eqb (doc_id x) (doc_id y)
  | _, _ => false
  end.

(** The canvas element: its identity, its size, and which page of which
    document its bitmap shows ([None]: blank). *)
Record Canvas : Type := mkCanvas {
  canvas_id : nat;
  canvas_width : Q;
  canvas_height : Q;
  painted : option (nat * Z)
}.

(** One invocation of [loadPdf]: the file its closure holds, and whether
    its promise chain has settled. *)
Record LoadTask : Type := mkLoad {
  load_file : File;
  load_settled : bool
}.

(** Where an invocation of [renderPage] is suspended: at
    [await pdfDoc.getPage], at [await page.render] on the canvas [target], or
    nowhere any more. *)
Inductive RenderPhase : Type :=
| AwaitGetPage
| AwaitRender (target : nat)
| Finished.

(** One invocation of [renderPage] with the [isCancelled] variable of the
    effect run that made it. *)
Record RenderTask : Type := mkRender {
  render_doc : PDFDocumentProxy;
  render_page : Z;
  isCancelled : bool;
  phase : RenderPhase
}.

(** The component: the [file] prop, the state hooks, [canvasRef.current],
    the asynchronous invocations in flight, the invocation whose cleanup
    the render effect last returned, and the supply of canvas elements. *)
Record State : Type := mkState {
  file : option File;
  isLoading : bool;
  error : option string;
  pdfDoc : option PDFDocumentProxy;
  currentPage : Z;
  totalPages : Z;
  pageInput : string;
  canvas : option Canvas;
  loads : list LoadTask;
  renders : list RenderTask;
  activeRender : option nat;
  nextCanvasId : nat
}.

(** Field updates ([setX(v)] of the state hooks, and the writes to refs and
    to the task tables). *)

Definition set_file (v : option File) (s : State) : State :=
  mkState v (isLoading s) (error s) (pdfDoc s) (currentPage s) (totalPages s)
    (pageInput s) (canvas s) (loads s) (renders s) (activeRender s)
    (nextCanvasId s).

Definition set_isLoading (v : bool) (s : State) : State :=
  mkState (file s) v (error s) (pdfDoc s) (currentPage s) (totalPages s)
    (pageInput s) (canvas s) (loads s) (renders s) (activeRender s)
    (nextCanvasId s).

Definition set_error (v : option string) (s : State) : State :=
  mkState (file s) (isLoading s) v (pdfDoc s) (currentPage s) (totalPages s)
    (pageInput s) (canvas s) (loads s) (renders s) (activeRender s)
    (nextCanvasId s).

Definition set_pdfDoc (v : option PDFDocumentProxy) (s : State) : State :=
  mkState (file s) (isLoading s) (error s) v (currentPage s) (totalPages s)
    (pageInput s) (canvas s) (loads s) (renders s) (activeRender s)
    (nextCanvasId s).

Definition set_currentPage (v : Z) (s : State) : State :=
  mkState (file s) (isLoading s) (error s) (pdfDoc s) v (totalPages s)
    (pageInput s) (canvas s) (loads s) (renders s) (activeRender s)
    (nextCanvasId s).

Definition set_totalPages (v : Z) (s : State) : State :=
  mkState (file s) (isLoading s) (error s) (pdfDoc s) (currentPage s) v
    (pageInput s) (canvas s) (loads s) (renders s) (activeRender s)
    (nextCanvasId s).

Definition set_pageInput (v : string) (s : State) : State :=
  mkState (file s) (isLoading s) (error s) (pdfDoc s) (currentPage s)
    (totalPages s) v (canvas s) (loads s) (renders s) (activeRender s)
    (nextCanvasId s).

Definition set_canvas (v : option Canvas) (s : State) : State :=
  mkState (file s) (isLoading s) (error s) (pdfDoc s) (currentPage s)
    (totalPages s) (pageInput s) v (loads s) (renders s) (activeRender s)
    (nextCanvasId s).

Definition set_loads (v : list LoadTask) (s : State) : State :=
  mkState (file s) (isLoading s) (error s) (pdfDoc s) (currentPage s)
    (totalPages s) (pageInput s) (canvas s) v (renders s) (activeRender s)
    (nextCanvasId s).

Definition set_renders (v : list RenderTask) (s : State) : State :=
  mkState (file s) (isLoading s) (error s) (pdfDoc s) (currentPage s)
    (totalPages s) (pageInput s) (canvas s) (loads s) v (activeRender s)
    (nextCanvasId s).

Definition set_activeRender (v : option nat) (s : State) : State :=
  mkState (file s) (isLoading s) (error s) (pdfDoc s) (currentPage s)
    (totalPages s) (pageInput s) (canvas s) (loads s) (renders s) v
    (nextCanvasId s).

Definition set_nextCanvasId (v : nat) (s : State) : State :=
  mkState (file s) (isLoading s) (error s) (pdfDoc s) (currentPage s)
    (totalPages s) (pageInput s) (canvas s) (loads s) (renders s)
    (activeRender s) v.

Definition initialState (f : option File) : State :=
  {| file := f; isLoading := false; error := None; pdfDoc := None;
     currentPage := 1; totalPages := 0; pageInput := "1"%string; canvas := None;
     loads := []; renders := []; activeRender := None; nextCanvasId := 0 |}.

Definition isSome {A : Type} (o : option A) : bool :=
  match o with Some _ => true | None => false end.

(** *** The file effect (dependency: [file]) *)

(** [ctx?.clearRect(0, 0, canvas.width, canvas.height); canvas.height = 0]. *)
Definition clearCanvas (c : Canvas) : Canvas :=
  {| canvas_id := canvas_id c; canvas_width := canvas_width c;
     canvas_height := 0; painted := None |}.

(** The effect body, [loadPdf] included up to its first [await].  [r] is
    the render whose closure the effect holds. *)
Definition fileEffect (r s : State) : State :=
  match file r with
  | None =>
      let s := set_pdfDoc None s in
      let s := set_totalPages 0 s in
      let s := set_currentPage 1 s in
      let s := set_pageInput "1"%string s in
      set_canvas (option_map clearCanvas (canvas s)) s
  | Some f =>
      let s := set_isLoading true s in
      let s := set_error None s in
      set_loads (loads s ++ [mkLoad f false]) s
  end.

Definition settleLoad (id : nat) (ts : list LoadTask) : list LoadTask :=
  firstn id ts ++
  match skipn id ts with
  | t :: rest => mkLoad (load_file t) true :: rest
  | [] => []
  end.

(** [loadPdf] from the point where [await loadingTask.promise] settles, with
    the page sizes of the decoded document or with a rejection. *)
Definition loadPdf_resume (id : nat) (outcome : option (list (Q * Q)))
    (s : State) : State :=
  match nth_error (loads s) id with
  | Some t =>
      if load_settled t then s
      else
        let s := set_loads (settleLoad id (loads s)) s in
        let s :=
          match outcome with
          | Some sizes =>
              let doc := mkDoc id sizes in
              let s := set_pdfDoc (Some doc) s in
              let s := set_totalPages (numPages doc) s in
              set_currentPage 1 s
          | None =>
              set_error
                (Some "Failed to load PDF. The file might be corrupted or incompatible."%string)
                s
          end in
        set_isLoading false s
  | None => s
  end.

(** *** The effect that mirrors [currentPage] into [pageInput] *)

Definition syncEffect (r s : State) : State :=
  set_pageInput (Js.toString (currentPage r)) s.

(** *** The render effect (dependencies: [pdfDoc], [currentPage]) *)

Definition updateRender (id : nat) (f : RenderTask -> RenderTask)
    (ts : list RenderTask) : list RenderTask :=
  firstn id ts ++
  match skipn id ts with
  | t :: rest => f t :: rest
  | [] => []
  end.

Definition cancelTask (t : RenderTask) : RenderTask :=
  mkRender (render_doc t) (render_page t) true (phase t).

Definition setPhase (p : RenderPhase) (t : RenderTask) : RenderTask :=
  mkRender (render_doc t) (render_page t) (isCancelled t) p.

(** The cleanup the previous run returned: [isCancelled = true]. *)
Definition renderCleanup (s : State) : State :=
  match activeRender s with
  | Some id =>
      set_activeRender None (set_renders (updateRender id cancelTask (renders s)) s)
  | None => s
  end.

(** Cleanup of the previous run, then the effect body with [renderPage] up
    to its first [await]. *)
Definition renderEffect (r s : State) : State :=
  let s := renderCleanup s in
  match pdfDoc r, canvas s with
  | Some doc, Some _ =>
      let s := set_error None s in
      let id := List.length (renders s) in
      let s := set_renders (renders s ++ [mkRender doc (currentPage r) false AwaitGetPage]) s in
      set_activeRender (Some id) s
  | _, _ => s
  end.

(** [containerRef.current?.clientWidth || 600]. *)
Definition containerWidthOf (clientWidth : option Q) : Q :=
  match clientWidth with
  | Some w => if Qeq_bool w 0 then 600%Q else w
  | None => 600%Q
  end.

(** The [catch] block of [renderPage]. *)
Definition renderPage_catch (t : RenderTask) (s : State) : State :=
  if isCancelled t then s
  else set_error (Some "Error rendering this page."%string) s.

(** [renderPage] from the point where [await pdfDoc.getPage(currentPage)]
    settles, up to [await page.render(renderContext).promise]. *)
Definition renderPage_afterGetPage (id : nat) (clientWidth : option Q)
    (s : State) : State :=
  match nth_error (renders s) id with
  | Some t =>
      match phase t with
      | AwaitGetPage =>
          let finish := set_renders (updateRender id (setPhase Finished) (renders s)) s in
          match getPage (render_doc t) (render_page t) with
          | Some (pageWidth, pageHeight) =>
              if isCancelled t then finish
              else
                let containerWidth := containerWidthOf clientWidth in
                let scale :=
                  Js.Math_min ((containerWidth - 32) / pageWidth)%Q (3 # 2)%Q in
                match canvas s with
                | Some c =>
                    let c' := mkCanvas (canvas_id c) (pageWidth * scale)%Q
                                (pageHeight * scale)%Q None in
                    let s := set_canvas (Some c') s in
                    set_renders
                      (updateRender id (setPhase (AwaitRender (canvas_id c))) (renders s)) s
                | None => finish
                end
          | None => renderPage_catch t finish
          end
      | _ => s
      end
  | None => s
  end.

(** The library draws on the canvas it was given between the call of
    [page.render] and the resolution of the promise; the drawing is applied
    here, at the resolution. *)
Definition paint (target : nat) (t : RenderTask) (s : State) : State :=
  match canvas s with
  | Some c =>
      if Nat.eqb (canvas_id c) target
      then set_canvas
             (Some (mkCanvas (canvas_id c) (canvas_width c) (canvas_height c)
                      (Some (doc_id (render_doc t), render_page t)))) s
      else s
  | None => s
  end.

(** [renderPage] from the point where [await page.render(...).promise]
    settles: the page is on the canvas, or the promise was rejected. *)
Definition renderPage_afterRender (id : nat) (ok : bool) (s : State) : State :=
  match nth_error (renders s) id with
  | Some t =>
      match phase t with
      | AwaitRender target =>
          let s := set_renders (updateRender id (setPhase Finished) (renders s)) s in
          if ok then paint target t s else renderPage_catch t s
      | _ => s
      end
  | None => s
  end.

(** *** Dragging: [calculatePercentage] *)

(** [overlayRef.current.getBoundingClientRect()]. *)
Record DOMRect : Type := mkRect {
  rect_left : Q;
  rect_top : Q;
  rect_width : Q;
  rect_height : Q
}.

(** The result is the argument [onPercentageChange] is called with; [None]
    when the function returns without calling it. *)
Definition calculatePercentage (overlay : option DOMRect)
    (orientation : SplitOrientation) (clientX clientY : Q) : option Z :=
  match overlay with
  | None => None
  | Some rect =>
      let newPercent :=
        match orientation with
        | Vertical =>
            let x := (clientX - rect_left rect)%Q in
            ((x / rect_width rect) * 100)%Q
        | Horizontal =>
            let y := (clientY - rect_top rect)%Q in
            ((y / rect_height rect) * 100)%Q
        end in
      let newPercent := Js.Math_max 1 (Js.Math_min 99 newPercent) in
      Some (Js.Math_round newPercent)
  end.

(** *** Page navigation.  A handler reads the values of the render [r] it
    was created in and queues its updates on [s]. *)

Definition handlePrevPage (r s : State) : State :=
  if 1 <? currentPage r then set_currentPage (currentPage s - 1) s else s.

Definition handleNextPage (r s : State) : State :=
  if currentPage r <? totalPages r then set_currentPage (currentPage s + 1) s else s.

Definition handlePageInputChange (val : string) (s : State) : State :=
  if String.eqb val EmptyString || Js.test_digits val then set_pageInput val s else s.

Definition handlePageInputSubmit (r s : State) : State :=
  match Js.parseInt (pageInput r) with
  | None => set_pageInput (Js.toString (currentPage r)) s
  | Some pageNum =>
      let pageNum := if pageNum <? 1 then 1 else pageNum in
      let pageNum := if totalPages r <? pageNum then totalPages r else pageNum in
      let s := set_currentPage pageNum s in
      set_pageInput (Js.toString pageNum) s
  end.

(** Enter submits and then blurs the input, whose [onBlur] submits again
    from the same render. *)
Definition handleKeyDown (key : string) (r s : State) : State :=
  if String.eqb key "Enter"
  then handlePageInputSubmit r (handlePageInputSubmit r s)
  else s.

(** *** Rendering and effects *)

(** The canvas is part of the output only in the last branch of the
    component's return. *)
Definition canvasShown (s : State) : bool :=
  isSome (file s) && negb (isLoading s) && negb (isSome (error s)).

(** Attaching [canvasRef] when the output is committed: a canvas that
    enters the output is a new 300 by 150 element. *)
Definition attachRefs (s : State) : State :=
  if canvasShown s
  then match canvas s with
       | Some _ => s
       | None =>
           let s := set_canvas (Some (mkCanvas (nextCanvasId s) 300%Q 150%Q None)) s in
           set_nextCanvasId (S (nextCanvasId s)) s
       end
  else set_canvas None s.

(** The effects whose dependencies differ between the previous render
    [prev] and the render [r], in the order the component declares them. *)
Definition runEffects (prev r : State) : State :=
  let s := r in
  let s := if File_same (file prev) (file r) then s else fileEffect r s in
  let s := if currentPage prev =? currentPage r then s else syncEffect r s in
  if Doc_same (pdfDoc prev) (pdfDoc r) && (currentPage prev =? currentPage r)
  then s else renderEffect r s.

(** A batch of updates [s] made since the render [prev]: render, run the
    effects, and render again for the updates the effects made. *)
Definition commit (prev s : State) : State :=
  let r1 := attachRefs s in
  let s1 := runEffects prev r1 in
  let r2 := attachRefs s1 in
  let s2 := runEffects r1 r2 in
  attachRefs s2.

(** Mounting runs every effect once. *)
Definition mount (f : option File) : State :=
  let r1 := attachRefs (initialState f) in
  let s1 := renderEffect r1 (syncEffect r1 (fileEffect r1 r1)) in
  let r2 := attachRefs s1 in
  let s2 := runEffects r1 r2 in
  attachRefs s2.

(** What can happen to a mounted component. *)
Inductive Event : Type :=
| SetFileProp (f : option File)
| LoadSettled (id : nat) (outcome : option (list (Q * Q)))
| GetPageSettled (id : nat) (clientWidth : option Q)
| RenderSettled (id : nat) (ok : bool)
| ClickPrev
| ClickNext
| PageInputChange (val : string)
| PageInputBlur
| PageInputKeyDown (key : string).

Definition handle (e : Event) (r : State) : State :=
  match e with
  | SetFileProp f => set_file f r
  | LoadSettled id outcome => loadPdf_resume id outcome r
  | GetPageSettled id clientWidth => renderPage_afterGetPage id clientWidth r
  | RenderSettled id ok => renderPage_afterRender id ok r
  | ClickPrev => handlePrevPage r r
  | ClickNext => handleNextPage r r
  | PageInputChange val => handlePageInputChange val r
  | PageInputBlur => handlePageInputSubmit r r
  | PageInputKeyDown key => handleKeyDown key r r
  end.

Definition step (s : State) (e : Event) : State := commit s (handle e s).

Definition run (s : State) (es : list Event) : State := fold_left step es s.

(** The states a component can be in. *)
Inductive reachable : State -> Prop :=
| reachable_mount f : reachable (mount f)
| reachable_step s e : reachable s -> reachable (step s e).

(** The buffer is empty or digits only, and the page numbers are not
    negative. *)
Definition Inv (s : State) : Prop :=
  (pageInput s = EmptyString \/ Js.test_digits (pageInput s) = true) /\
  0 <= currentPage s /\ 0 <= totalPages s.

(** The page count of the document held, 0 when there is none. *)
Definition docPages (o : option PDFDocumentProxy) : Z :=
  match o with
  | Some d => numPages d
  | None => 0
  end.

(** [totalPages] is the page count of the document held, and the page
    number lies in the document; with no page at all it is 0 or 1. *)
Definition Range (s : State) : Prop :=
  totalPages s = docPages (pdfDoc s) /\
  ((totalPages s = 0 /\ 0 <= currentPage s <= 1) \/
   1 <= currentPage s <= totalPages s).

(** The page an invocation of [renderPage] asks for exists, unless its
    document has no page. *)
Definition requestOk (t : RenderTask) : Prop :=
  numPages (render_doc t) = 0 \/
  exists size, getPage (render_doc t) (render_page t) = Some size.

(** The invariant: the page range, and every render request in range. *)
Definition Ranged (s : State) : Prop := Range s /\ Forall requestOk (renders s).

(** The document held was delivered to an invocation of [loadPdf] that has
    settled. *)
Definition DocSettled (s : State) : Prop :=
  forall d, pdfDoc s = Some d ->
    exists t, nth_error (loads s) (doc_id d) = Some t /\ load_settled t = true.

(** The events of page navigation. *)
Definition navigation (e : Event) : Prop :=
  e = ClickPrev \/ e = ClickNext \/ e = PageInputBlur \/
  exists key, e = PageInputKeyDown key.

(** The render scale: fit to the container's width less 32, at most 1.5. *)
Definition renderScale (clientWidth : option Q) (pageWidth : Q) : Q :=
  Js.Math_min ((containerWidthOf clientWidth - 32) / pageWidth)%Q (3 # 2)%Q.

End PdfPreview.

(** ** App.tsx *)

Module App.

Record AppState : Type := mkApp {
  file : option File;
  orientation : SplitOrientation;
  percentage : Z;
  status : ProcessingStatus
}.

Definition initialApp : AppState :=
  {| file := None; orientation := Vertical; percentage := 50;
     status := mkStatus false None None |}.

(** [handleFileChange]; [files] is [e.target.files]. *)
Definition handleFileChange (files : option (list File)) (st : AppState) : AppState :=
  match files with
  | Some (selectedFile :: _) =>
      if negb (String.eqb (file_type selectedFile) "application/pdf")
      then
        {| file := file st; orientation := orientation st;
           percentage := percentage st;
           status := mkStatus (isProcessing (status st))
                       (Some "Please upload a valid PDF file."%string) None |}
      else
        {| file := Some selectedFile; orientation := orientation st;
           percentage := 50;
           status := mkStatus false None None |}
  | _ => st
  end.

End App.

(** ** services/pdfService: [downloadBlob] *)

Module Download.

(** An ASCII capital letter as its small letter, any other character as
    itself. *)
Definition lower (c : ascii) : ascii :=
  let n := nat_of_ascii c in
  if (65 <=? n)%nat && (n <=? 90)%nat then ascii_of_nat (n + 32) else c.

(** [/\.pdf$/i] matches at the start of [s]: [s] is a dot and the letters
    p, d, f in either case, and ends there. *)
Definition isDotPdf (s : string) : bool :=
  match s with
  | String c0 (String c1 (String c2 (String c3 EmptyString))) =>
      Ascii.eqb c0 "."%char && Ascii.eqb (lower c1) "p"%char &&
      Ascii.eqb (lower c2) "d"%char && Ascii.eqb (lower c3) "f"%char
  | _ => false
  end.

(** [originalName.replace(/\.pdf$/i, '')]: the first position, from the
    left, at which the pattern matches is cut out. *)
Fixpoint replace_pdf_suffix (s : string) : string :=
  match s with
  | EmptyString => EmptyString
  | String c rest =>
      if isDotPdf s then EmptyString else String c (replace_pdf_suffix rest)
  end.

(** Some ending of [s] is .pdf in some letter case. *)
Fixpoint endsWithDotPdf (s : string) : bool :=
  match s with
  | EmptyString => false
  | String _ rest => isDotPdf s || endsWithDotPdf rest
  end.

(** The values of the [SplitOrientation] enum. *)
Definition orientationString (o : SplitOrientation) : string :=
  match o with
  | Vertical => "vertical"
  | Horizontal => "horizontal"
  end.

(** What the browser is asked to save: the [download] attribute of the link
    that is clicked and the blob behind it.  The saved bytes are kept as the
    document they encode. *)
Record Download : Type := mkDownload {
  download_name : string;
  download_data : PdfService.PDFDocument
}.

Definition downloadBlob (data : PdfService.PDFDocument)
    (originalName orientation : string) (percentage : Z) : Download :=
  let nameWithoutExt := replace_pdf_suffix originalName in
  mkDownload
    (nameWithoutExt ++ "_split_" ++ orientation ++ "_"
       ++ Js.toString percentage ++ ".pdf")%string
    data.

End Download.

(** ** App.tsx: processing, and the application as a whole *)

Module AppFlow.

(** One invocation of [handleProcess]: the file, orientation and percentage
    of the render it was created in, and whether it has run to its end. *)
Record ProcessTask : Type := mkTask {
  task_file : File;
  task_orientation : SplitOrientation;
  task_percentage : Z;
  task_settled : bool
}.

(** The application: its state hooks, the invocations of [handleProcess],
    and the downloads it has triggered. *)
Record Shell : Type := mkShell {
  app : App.AppState;
  tasks : list ProcessTask;
  downloads : list Download.Download
}.

Definition initialShell : Shell := mkShell App.initialApp [] [].

Definition set_status (v : ProcessingStatus) (st : App.AppState) : App.AppState :=
  App.mkApp (App.file st) (App.orientation st) (App.percentage st) v.

(** [handleProcess] up to its first [await]. *)
Definition handleProcess (sh : Shell) : Shell :=
  match App.file (app sh) with
  | None => sh
  | Some f =>
      mkShell (set_status (mkStatus true None None) (app sh))
        (tasks sh ++ [mkTask f (App.orientation (app sh))
                        (App.percentage (app sh)) false])
        (downloads sh)
  end.

Definition doubleQuote : string := String (ascii_of_nat 34) EmptyString.

Definition successText (name : string) : string :=
  ("Successfully split " ++ doubleQuote ++ name ++ doubleQuote
     ++ "! check your downloads.")%string.

Definition processError : string :=
  "An error occurred while processing the PDF. The file might be corrupted or password protected.".

Definition settleTask (id : nat) (ts : list ProcessTask) : list ProcessTask :=
  firstn id ts ++
  match skipn id ts with
  | t :: rest => mkTask (task_file t) (task_orientation t) (task_percentage t) true :: rest
  | [] => []
  end.

(** [handleProcess] from the delay to its end.  [loaded] is what
    [PDFDocument.load] gives for the file's bytes: the document, or an
    exception. *)
Definition handleProcess_resume (id : nat)
    (loaded : option PdfService.PDFDocument) (sh : Shell) : Shell :=
  match nth_error (tasks sh) id with
  | Some t =>
      if task_settled t then sh
      else
        let failed :=
          mkShell (set_status (mkStatus false (Some processError) None) (app sh))
            (settleTask id (tasks sh)) (downloads sh) in
        match loaded with
        | Some originalDoc =>
            match PdfService.splitPdfDocument originalDoc (task_orientation t)
                    (inject_Z (task_percentage t)) with
            | Some newPdfBytes =>
                mkShell
                  (set_status
                     (mkStatus false None (Some (successText (file_name (task_file t)))))
                     (app sh))
                  (settleTask id (tasks sh))
                  (downloads sh ++
                     [Download.downloadBlob newPdfBytes (file_name (task_file t))
                        (Download.orientationString (task_orientation t))
                        (task_percentage t)])
            | None => failed
            end
        | None => failed
        end
  | None => sh
  end.

Definition onApp (f : App.AppState -> App.AppState) (sh : Shell) : Shell :=
  mkShell (f (app sh)) (tasks sh) (downloads sh).

(** [setFile(null)], [setOrientation(o)] and [setPercentage(v)]. *)
Definition setFile_null (st : App.AppState) : App.AppState :=
  App.mkApp None (App.orientation st) (App.percentage st) (App.status st).

Definition setOrientation (o : SplitOrientation) (st : App.AppState) : App.AppState :=
  App.mkApp (App.file st) o (App.percentage st) (App.status st).

Definition setPercentage (v : Z) (st : App.AppState) : App.AppState :=
  App.mkApp (App.file st) (App.orientation st) v (App.status st).

(** A pointer event on the preview: [calculatePercentage] with the
    [orientation] prop, and [onPercentageChange={setPercentage}]. *)
Definition previewDrag (overlay : option PdfPreview.DOMRect) (clientX clientY : Q)
    (st : App.AppState) : App.AppState :=
  match PdfPreview.calculatePercentage overlay (App.orientation st) clientX clientY with
  | Some v => setPercentage v st
  | None => st
  end.

Inductive Event : Type :=
| FileInputChange (files : option (list File))
| RemoveFile
| ChooseOrientation (o : SplitOrientation)
| PreviewDrag (overlay : option PdfPreview.DOMRect) (clientX clientY : Q)
| ClickProcess
| ProcessSettled (id : nat) (loaded : option PdfService.PDFDocument).

Definition step (sh : Shell) (e : Event) : Shell :=
  match e with
  | FileInputChange files => onApp (App.handleFileChange files) sh
  | RemoveFile => onApp setFile_null sh
  | ChooseOrientation o => onApp (setOrientation o) sh
  | PreviewDrag overlay x y => onApp (previewDrag overlay x y) sh
  | ClickProcess => handleProcess sh
  | ProcessSettled id loaded => handleProcess_resume id loaded sh
  end.

Definition run (sh : Shell) (es : list Event) : Shell := fold_left step es sh.

(** Which events the output of [App] offers: the file input is in the
    output only while no file is stored; the remove button, the orientation
    buttons, the preview and the process button only while one is, the
    process button being disabled while processing. *)
Definition offered (sh : Shell) (e : Event) : Prop :=
  match e with
  | FileInputChange _ => App.file (app sh) = None
  | RemoveFile | ChooseOrientation _ | PreviewDrag _ _ _ =>
      App.file (app sh) <> None
  | ClickProcess =>
      App.file (app sh) <> None /\ isProcessing (App.status (app sh)) = false
  | ProcessSettled _ _ => True
  end.

(** Not both an error and a success message. *)
Definition exclusive (st : ProcessingStatus) : Prop :=
  status_error st = None \/ successMessage st = None.

(** The overlay a pointer event finds, if any, has a positive width and
    height. *)
Definition overlayVisible (e : Event) : Prop :=
  match e with
  | PreviewDrag (Some rect) _ _ =>
      (0 < PdfPreview.rect_width rect)%Q /\ (0 < PdfPreview.rect_height rect)%Q
  | _ => True
  end.

End AppFlow.

(** ** components/PdfPreview: the drag gesture *)

Module DragGesture.

Import PdfPreview.

(** The [isDragging] hook, whether the window listeners are attached, the
    arguments [onPercentageChange] has been called with, oldest first, and
    how many events had their default action prevented. *)
Record Gesture : Type := mkGesture {
  isDragging : bool;
  listening : bool;
  reported : list Z;
  prevented : nat
}.

Definition idle : Gesture := mkGesture false false [] 0.

(** A mouse or touch event on the interactive layer, or one the window
    delivers.  [overlay] is the rectangle of the overlay when the event is
    handled, if the overlay is in the output; a touch event has a first
    touch. *)
Inductive PointerEvent : Type :=
| MouseDown (overlay : option DOMRect) (clientX clientY : Q)
| TouchStart (overlay : option DOMRect) (touch : Q * Q) (others : list (Q * Q))
| WindowMouseMove (overlay : option DOMRect) (clientX clientY : Q)
| WindowMouseUp
| WindowTouchMove (overlay : option DOMRect) (touch : Q * Q) (others : list (Q * Q))
| WindowTouchEnd.

(** [calculatePercentage(x, y)] with its call of [onPercentageChange]. *)
Definition callCalculate (orientation : SplitOrientation)
    (overlay : option DOMRect) (x y : Q) (g : Gesture) : Gesture :=
  match calculatePercentage overlay orientation x y with
  | Some v => mkGesture (isDragging g) (listening g) (reported g ++ [v]) (prevented g)
  | None => g
  end.

Definition setIsDragging (v : bool) (g : Gesture) : Gesture :=
  mkGesture v (listening g) (reported g) (prevented g).

Definition preventDefault (g : Gesture) : Gesture :=
  mkGesture (isDragging g) (listening g) (reported g) (S (prevented g)).

Definition handleMouseDown (orientation : SplitOrientation)
    (overlay : option DOMRect) (x y : Q) (g : Gesture) : Gesture :=
  callCalculate orientation overlay x y (setIsDragging true g).

Definition handleTouchStart (orientation : SplitOrientation)
    (overlay : option DOMRect) (touch : Q * Q) (g : Gesture) : Gesture :=
  callCalculate orientation overlay (fst touch) (snd touch) (setIsDragging true g).

(** The window handlers, with the [isDragging] of the render [r] their
    effect ran in. *)
Definition handleMouseMove (orientation : SplitOrientation) (r : Gesture)
    (overlay : option DOMRect) (x y : Q) (g : Gesture) : Gesture :=
  if isDragging r
  then callCalculate orientation overlay x y (preventDefault g)
  else g.

Definition handleTouchMove (orientation : SplitOrientation) (r : Gesture)
    (overlay : option DOMRect) (touch : Q * Q) (g : Gesture) : Gesture :=
  if isDragging r
  then callCalculate orientation overlay (fst touch) (snd touch) (preventDefault g)
  else g.

(** The effect with dependency [isDragging]: its cleanup removes the four
    listeners, its body adds them when [isDragging] holds. *)
Definition listenersEffect (g : Gesture) : Gesture :=
  mkGesture (isDragging g) (isDragging g) (reported g) (prevented g).

(** One event: the handler, if one is attached, then the effect. *)
Definition step (orientation : SplitOrientation) (g : Gesture) (e : PointerEvent)
    : Gesture :=
  listenersEffect
    match e with
    | MouseDown overlay x y => handleMouseDown orientation overlay x y g
    | TouchStart overlay touch _ => handleTouchStart orientation overlay touch g
    | WindowMouseMove overlay x y =>
        if listening g then handleMouseMove orientation g overlay x y g else g
    | WindowMouseUp => if listening g then setIsDragging false g else g
    | WindowTouchMove overlay touch _ =>
        if listening g then handleTouchMove orientation g overlay touch g else g
    | WindowTouchEnd => if listening g then setIsDragging false g else g
    end.

Definition run (orientation : SplitOrientation) (g : Gesture)
    (es : list PointerEvent) : Gesture :=
  fold_left (step orientation) es g.

(** The events the window delivers. *)
Definition fromWindow (e : PointerEvent) : bool :=
  match e with
  | MouseDown _ _ _ | TouchStart _ _ _ => false
  | _ => true
  end.

(** The events that end a gesture. *)
Definition release (e : PointerEvent) : bool :=
  match e with
  | WindowMouseUp | WindowTouchEnd => true
  | _ => false
  end.

(** The overlay an event finds, if any, has a positive width and height. *)
Definition overlayVisible (e : PointerEvent) : Prop :=
  match e with
  | MouseDown (Some rect) _ _ | TouchStart (Some rect) _ _
  | WindowMouseMove (Some rect) _ _ | WindowTouchMove (Some rect) _ _ =>
      (0 < rect_width rect)%Q /\ (0 < rect_height rect)%Q
  | _ => True
  end.

End DragGesture.

(** ** The words of the specification *)

Module Spec.



End Spec.

(** ** The inputs of the examples *)

Module Examples.

Import PdfService.
Local Open Scope Q_scope.

(** A page of 595 by 842 points whose media box starts at the origin. *)
Definition a4 (n : nat) : PDFPage := mkPage 0 0 595 842 n.

Definition fourPages : PDFDocument := [a4 0; a4 1; a4 2; a4 3].

(** An overlay of 200 by 400 pixels at (10, 20). *)
Definition overlayRect : PdfPreview.DOMRect := PdfPreview.mkRect 10 20 200 400.

Definition fileA : File := mkFile 0 "a.pdf" "application/pdf".

Definition fileB : File := mkFile 1 "b.pdf" "application/pdf".

Definition notes : File := mkFile 2 "notes.txt" "text/plain".

(** The decoded form of a document of [n] pages of 595 by 842. *)
Definition sizes (n : nat) : list (Q * Q) := repeat (595%Q, 842%Q) n.

(** A preview showing a document of ten pages, at page 1. *)
Definition tenPagesShown : PdfPreview.State :=
  PdfPreview.run (PdfPreview.mount (Some fileA))
    [PdfPreview.LoadSettled 0 (Some (sizes 10))].

(** The same preview after "15" was typed into the page input. *)
Definition typed15 : PdfPreview.State :=
  PdfPreview.step tenPagesShown (PdfPreview.PageInputChange "15").

End Examples.

(** ** Further inputs of the examples *)

Module MoreExamples.

Definition report : File := mkFile 3 "Report.PDF" "application/pdf".

(** Select a.pdf, drag far right of the overlay, choose Horizontal, drag
    above the overlay. *)
Definition dragSession : list AppFlow.Event :=
  [AppFlow.FileInputChange (Some [Examples.fileA]);
   AppFlow.PreviewDrag (Some Examples.overlayRect) 5000 0;
   AppFlow.ChooseOrientation Horizontal;
   AppFlow.PreviewDrag (Some Examples.overlayRect) 0 (-7)].

(** Report.PDF selected, the divider dragged to 30 percent. *)
Definition reportAt30 : AppFlow.Shell :=
  AppFlow.run AppFlow.initialShell
    [AppFlow.FileInputChange (Some [report]);
     AppFlow.PreviewDrag (Some Examples.overlayRect) 70 0].

(** The ten-page preview after the rasterization of page 1 failed. *)
Definition renderFailed : PdfPreview.State :=
  PdfPreview.run Examples.tenPagesShown
    [PdfPreview.GetPageSettled 0 (Some 800%Q); PdfPreview.RenderSettled 0 false].

(** The ten-page preview after Next, then "15" typed and committed. *)
Definition navigated : PdfPreview.State :=
  PdfPreview.run Examples.tenPagesShown
    [PdfPreview.ClickNext; PdfPreview.PageInputChange "15";
     PdfPreview.PageInputBlur].

(** The request for page 2 that Next makes. *)
Definition requestPage2 : PdfPreview.RenderTask :=
  PdfPreview.mkRender (PdfPreview.mkDoc 0 (Examples.sizes 10)) 2 false
    PdfPreview.AwaitGetPage.

(** A drag by mouse: down inside the overlay, a move far to the right, up,
    and a move after the release. *)
Definition mouseDrag : list DragGesture.PointerEvent :=
  [DragGesture.MouseDown (Some Examples.overlayRect) 60 100;
   DragGesture.WindowMouseMove (Some Examples.overlayRect) 900 100;
   DragGesture.WindowMouseUp;
   DragGesture.WindowMouseMove (Some Examples.overlayRect) 110 100].

End MoreExamples.

(** * Properties *)

(** ** The split service *)

Module PdfServiceProps.

Import PdfService.
Local Open Scope Q_scope.

Lemma loop_from (originalDoc : PDFDocument) o p :
  forall (rest : list PDFPage) (k : nat) (newDoc : PDFDocument),
    skipn k originalDoc = rest ->
    fold_left (loopBody originalDoc o p) (seq k (List.length rest)) (Some newDoc)
    = Some (newDoc ++ flat_map (halves o p) rest).
Proof.
  induction rest as [|pg rest IH]; intros k newDoc Hk; simpl.
  - now rewrite app_nil_r.
  - assert (Hnth : nth_error originalDoc k = Some pg).
    { rewrite <- (Nat.add_0_r k), <- nth_error_skipn, Hk. reflexivity. }
    unfold copyPages. rewrite Hnth.
    unfold halves at 1.
    destruct (cropPair o p pg pg) as [p1 p2].
    rewrite IH.
    + unfold addPage. now rewrite <- !app_assoc.
    + replace (S k) with (1 + k)%nat by reflexivity.
      rewrite <- skipn_skipn, Hk. reflexivity.
Qed.

Lemma splitPdfDocument_flat_map (doc : PDFDocument) o p :
  splitPdfDocument doc o p = Some (flat_map (halves o p) doc).
Proof.
  exact (loop_from doc o p doc 0%nat [] eq_refl).
Qed.

Lemma halves_length o p doc :
  List.length (flat_map (halves o p) doc) = (2 * List.length doc)%nat.
Proof.
  induction doc as [|pg doc IH]; simpl; [reflexivity|].
  unfold halves at 1. destruct (cropPair o p pg pg). simpl. lia.
Qed.

Lemma halves_nth o p : forall doc i pg,
  nth_error doc i = Some pg ->
  nth_error (flat_map (halves o p) doc) (2 * i) = Some (fst (cropPair o p pg pg)) /\
  nth_error (flat_map (halves o p) doc) (2 * i + 1) = Some (snd (cropPair o p pg pg)).
Proof.
  induction doc as [|q doc IH]; intros [|i] pg H; simpl in H; try discriminate.
  - injection H as ->. simpl. unfold halves.
    destruct (cropPair o p pg pg). simpl. auto.
  - replace (2 * S i)%nat with (S (S (2 * i))) by lia.
    simpl flat_map. unfold halves at 1. unfold halves at 2.
    destruct (cropPair o p q q). simpl.
    apply IH in H. exact H.
Qed.

(** The two pages cut from [pg] by a vertical split at [p] percent. *)
Lemma cropPair_vertical p pg :
  cropPair Vertical p pg pg =
  (setMediaBox 0 0 (fst (getSize pg) * (p / 100)) (snd (getSize pg)) pg,
   setMediaBox (fst (getSize pg) * (p / 100)) 0
     (fst (getSize pg) - fst (getSize pg) * (p / 100)) (snd (getSize pg)) pg).
Proof. reflexivity. Qed.

Lemma cropPair_horizontal p pg :
  cropPair Horizontal p pg pg =
  (setMediaBox 0 (snd (getSize pg) * (p / 100)) (fst (getSize pg))
     (snd (getSize pg) - snd (getSize pg) * (p / 100)) pg,
   setMediaBox 0 0 (fst (getSize pg)) (snd (getSize pg) * (p / 100)) pg).
Proof. reflexivity. Qed.

(** C1. Vertical orientation: a document of N >= 1 pages and a percentage
    p in [1, 99] give a document of 2N pages; original page i (width w,
    height h) is at positions 2i and 2i+1, first the left copy, whose media
    box spans x from 0 to (p/100)w, then the right copy, whose media box
    spans x from (p/100)w to w; both copies keep the height h and the
    page's content. *)
Theorem vertical_split_pages (doc : PDFDocument) (p : Q) :
  (1 <= List.length doc)%nat ->
  1 <= p <= 99 ->
  exists out,
    splitPdfDocument doc Vertical p = Some out /\
    List.length out = (2 * List.length doc)%nat /\
    forall i pg, nth_error doc i = Some pg ->
      exists left right,
        nth_error out (2 * i) = Some left /\
        nth_error out (2 * i + 1) = Some right /\
        llx left == 0 /\
        urx left == (p / 100) * fst (getSize pg) /\
        llx right == (p / 100) * fst (getSize pg) /\
        urx right == fst (getSize pg) /\
        fst (getSize left) == (p / 100) * fst (getSize pg) /\
        fst (getSize right) == fst (getSize pg) - (p / 100) * fst (getSize pg) /\
        snd (getSize left) == snd (getSize pg) /\
        snd (getSize right) == snd (getSize pg) /\
        content left = content pg /\
        content right = content pg.
Proof.
  intros _ _.
  exists (flat_map (halves Vertical p) doc).
  split; [apply splitPdfDocument_flat_map|].
  split; [apply halves_length|].
  intros i pg Hpg.
  destruct (halves_nth Vertical p doc i pg Hpg) as [H1 H2].
  rewrite cropPair_vertical in H1, H2. simpl fst in H1. simpl snd in H2.
  eexists; eexists.
  split; [exact H1|]. split; [exact H2|].
  unfold setMediaBox, getSize; simpl.
  repeat split; try reflexivity; field.
Qed.

(** C1, the example of the specification: four pages of 595 by 842 at 30
    percent give eight pages, the first 0.30 x 595 wide and the second
    0.70 x 595 wide, both 842 high. *)
Lemma vertical_split_pages_witness :
  exists out p1 p2,
    splitPdfDocument Examples.fourPages Vertical 30 = Some out /\
    List.length out = 8%nat /\
    nth_error out 0 = Some p1 /\
    nth_error out 1 = Some p2 /\
    fst (getSize p1) == (30 # 100) * 595 /\
    fst (getSize p2) == (70 # 100) * 595 /\
    snd (getSize p1) == 842 /\
    snd (getSize p2) == 842.
Proof.
  destruct (vertical_split_pages Examples.fourPages 30) as (out & Hout & Hlen & Hpages).
  - simpl. lia.
  - split; discriminate.
  - destruct (Hpages 0%nat (Examples.a4 0) eq_refl)
      as (p1 & p2 & H1 & H2 & _ & _ & _ & _ & W1 & W2 & T1 & T2 & _).
    exists out, p1, p2.
    split; [exact Hout|]. split; [exact Hlen|].
    split; [exact H1|]. split; [exact H2|].
    split; [rewrite W1; reflexivity|].
    split; [rewrite W2; reflexivity|].
    split; [rewrite T1; reflexivity | rewrite T2; reflexivity].
Defined.

(** C2. Horizontal orientation: each page of width w and height H gives,
    first, the top region, whose media box spans y from splitY = (p/100)H to
    H and is H - splitY high, then the bottom region, which spans y from 0 to
    splitY; both keep the width w. *)
Theorem horizontal_split_pages (doc : PDFDocument) (p : Q) :
  1 <= p <= 99 ->
  exists out,
    splitPdfDocument doc Horizontal p = Some out /\
    forall i pg, nth_error doc i = Some pg ->
      let splitY := (p / 100) * snd (getSize pg) in
      exists top bottom,
        nth_error out (2 * i) = Some top /\
        nth_error out (2 * i + 1) = Some bottom /\
        lly top == splitY /\
        ury top == snd (getSize pg) /\
        snd (getSize top) == snd (getSize pg) - splitY /\
        lly bottom == 0 /\
        ury bottom == splitY /\
        snd (getSize bottom) == splitY /\
        fst (getSize top) == fst (getSize pg) /\
        fst (getSize bottom) == fst (getSize pg).
Proof.
  intros _.
  exists (flat_map (halves Horizontal p) doc).
  split; [apply splitPdfDocument_flat_map|].
  intros i pg Hpg splitY. subst splitY.
  destruct (halves_nth Horizontal p doc i pg Hpg) as [H1 H2].
  rewrite cropPair_horizontal in H1, H2. simpl fst in H1. simpl snd in H2.
  eexists; eexists.
  split; [exact H1|]. split; [exact H2|].
  unfold setMediaBox, getSize; simpl.
  repeat split; try reflexivity; field.
Qed.

(** C2, the example of the specification: at 70 percent a page 842 high
    gives a top region 0.30 x 842 high and then a bottom region 0.70 x 842
    high. *)
Lemma horizontal_split_pages_witness :
  exists out top bottom,
    splitPdfDocument [Examples.a4 0] Horizontal 70 = Some out /\
    out = [top; bottom] /\
    snd (getSize top) == (30 # 100) * 842 /\
    snd (getSize bottom) == (70 # 100) * 842.
Proof.
  destruct (horizontal_split_pages [Examples.a4 0] 70) as (out & Hout & Hpages).
  - split; discriminate.
  - destruct (Hpages 0%nat (Examples.a4 0) eq_refl)
      as (t & b & H1 & H2 & _ & _ & T & _ & _ & B & _).
    exists out, t, b.
    split; [exact Hout|].
    split.
    + rewrite splitPdfDocument_flat_map in Hout. injection Hout as <-.
      simpl in H1, H2 |- *. injection H1 as <-. injection H2 as <-. reflexivity.
    + split; [rewrite T | rewrite B]; reflexivity.
Defined.

End PdfServiceProps.

(** ** The JavaScript built-ins *)

Module JsProps.

Import Js.

Lemma Math_round_le (x y : Q) : (x <= y)%Q -> Math_round x <= Math_round y.
Proof.
  intro H. unfold Math_round. apply Qfloor_resp_le.
  apply Qplus_le_compat; [exact H | apply Qle_refl].
Qed.

Lemma Math_round_1 : Math_round 1 = 1.
Proof. reflexivity. Qed.

Lemma Math_round_99 : Math_round 99 = 99.
Proof. reflexivity. Qed.

Lemma Qle_bool_false (a b : Q) : Qle_bool a b = false -> (b <= a)%Q.
Proof.
  intro H. destruct (Qlt_le_dec b a) as [Hlt|Hle].
  - apply Qlt_le_weak, Hlt.
  - apply Qle_bool_iff in Hle. congruence.
Qed.

(** Clamping a number to [1, 99] and then rounding it gives what rounding it
    and then clamping gives. *)
Lemma round_clamp_commute (x : Q) :
  Math_round (Math_max 1 (Math_min 99 x)) = Z.max 1 (Z.min 99 (Math_round x)).
Proof.
  unfold Math_max, Math_min.
  destruct (Qle_bool 99 x) eqn:H99.
  - apply Qle_bool_iff in H99. apply Math_round_le in H99.
    rewrite Math_round_99 in H99.
    change (Qle_bool 1 99) with true. cbv iota. rewrite Math_round_99. lia.
  - apply Qle_bool_false in H99. apply Math_round_le in H99.
    rewrite Math_round_99 in H99.
    destruct (Qle_bool 1 x) eqn:H1.
    + apply Qle_bool_iff in H1. apply Math_round_le in H1.
      rewrite Math_round_1 in H1. lia.
    + apply Qle_bool_false in H1. apply Math_round_le in H1.
      rewrite Math_round_1 in H1 |- *. lia.
Qed.

Lemma allDigits_uint (d : Decimal.uint) :
  allDigits (NilEmpty.string_of_uint d) = true.
Proof. induction d; simpl; auto. Qed.

Lemma test_digits_uint (d : Decimal.uint) :
  test_digits (NilZero.string_of_uint d) = true.
Proof.
  destruct d; try reflexivity;
    unfold NilZero.string_of_uint; simpl; apply allDigits_uint.
Qed.

(** The decimal form of a number that is not negative is a string of
    digits. *)
Lemma toString_digits (n : Z) : 0 <= n -> test_digits (toString n) = true.
Proof.
  intro H. unfold toString.
  destruct n as [|p|p]; [reflexivity| |lia].
  simpl. apply test_digits_uint.
Qed.

End JsProps.

(** ** The preview component *)

Module PdfPreviewProps.

Import PdfPreview.



(** *** How a commit treats the page number and its text buffer *)

Ltac break_match :=
  match goal with
  | |- context [match ?x with _ => _ end] => destruct x eqn:?
  end.

Lemma File_same_refl f : File_same f f = true.
Proof. destruct f; simpl; [apply Nat.eqb_refl | reflexivity]. Qed.

Lemma Doc_same_refl d : Doc_same d d = true.
Proof. destruct d; simpl; [apply Nat.eqb_refl | reflexivity]. Qed.

Lemma attachRefs_fields s :
  file (attachRefs s) = file s /\
  pdfDoc (attachRefs s) = pdfDoc s /\
  currentPage (attachRefs s) = currentPage s /\
  totalPages (attachRefs s) = totalPages s /\
  pageInput (attachRefs s) = pageInput s /\
  error (attachRefs s) = error s /\
  isLoading (attachRefs s) = isLoading s /\
  loads (attachRefs s) = loads s /\
  renders (attachRefs s) = renders s.
Proof.
  unfold attachRefs. repeat break_match; cbn; repeat split; reflexivity.
Qed.

Lemma renderEffect_fields r s :
  file (renderEffect r s) = file s /\
  pdfDoc (renderEffect r s) = pdfDoc s /\
  currentPage (renderEffect r s) = currentPage s /\
  totalPages (renderEffect r s) = totalPages s /\
  pageInput (renderEffect r s) = pageInput s /\
  isLoading (renderEffect r s) = isLoading s /\
  loads (renderEffect r s) = loads s /\
  canvas (renderEffect r s) = canvas s.
Proof.
  unfold renderEffect, renderCleanup.
  repeat break_match; cbn in *; repeat split; congruence.
Qed.

Lemma renderEffect_file r s : file (renderEffect r s) = file s.
Proof. apply renderEffect_fields. Qed.

Lemma renderEffect_pdfDoc r s : pdfDoc (renderEffect r s) = pdfDoc s.
Proof. apply renderEffect_fields. Qed.

Lemma renderEffect_currentPage r s : currentPage (renderEffect r s) = currentPage s.
Proof. apply renderEffect_fields. Qed.

Lemma renderEffect_totalPages r s : totalPages (renderEffect r s) = totalPages s.
Proof. apply renderEffect_fields. Qed.

Lemma renderEffect_pageInput r s : pageInput (renderEffect r s) = pageInput s.
Proof. apply renderEffect_fields. Qed.

(** The effects that follow a render in which the [file] prop is the one of
    the previous render. *)
Lemma runEffects_same_file prev r :
  File_same (file prev) (file r) = true ->
  let s := runEffects prev r in
  file s = file r /\ pdfDoc s = pdfDoc r /\
  currentPage s = currentPage r /\ totalPages s = totalPages r /\
  isLoading s = isLoading r /\ loads s = loads r /\
  pageInput s = if currentPage prev =? currentPage r
                then pageInput r else Js.toString (currentPage r).
Proof.
  intros Hf. unfold runEffects. rewrite Hf.
  destruct (currentPage prev =? currentPage r) eqn:Hc; cbv zeta.
  - rewrite andb_true_r.
    destruct (Doc_same (pdfDoc prev) (pdfDoc r)).
    + repeat split; reflexivity.
    + destruct (renderEffect_fields r r) as (? & ? & ? & ? & ? & ? & ? & ?).
      repeat split; assumption.
  - rewrite andb_false_r.
    destruct (renderEffect_fields r (syncEffect r r)) as (? & ? & ? & ? & ? & ? & ? & ?).
    repeat split; assumption.
Qed.

(** A batch of updates that leaves the [file] prop alone: the hooks keep the
    values of the batch, and the buffer is rewritten when the page number
    differs from the one of the previous render. *)
Lemma commit_same_file prev s :
  File_same (file prev) (file s) = true ->
  let s' := commit prev s in
  file s' = file s /\ pdfDoc s' = pdfDoc s /\
  currentPage s' = currentPage s /\ totalPages s' = totalPages s /\
  isLoading s' = isLoading s /\ loads s' = loads s /\
  pageInput s' = if currentPage prev =? currentPage s
                 then pageInput s else Js.toString (currentPage s).
Proof.
  intros Hf. unfold commit. cbv zeta.
  destruct (attachRefs_fields s) as (A1 & A2 & A3 & A4 & A5 & _ & A7 & A8 & _).
  set (r1 := attachRefs s) in *.
  assert (Hf1 : File_same (file prev) (file r1) = true) by (rewrite A1; exact Hf).
  destruct (runEffects_same_file prev r1 Hf1) as (B1 & B2 & B3 & B4 & B5 & B6 & B7).
  set (s1 := runEffects prev r1) in *.
  destruct (attachRefs_fields s1) as (C1 & C2 & C3 & C4 & C5 & _ & C7 & C8 & _).
  set (r2 := attachRefs s1) in *.
  assert (Hf2 : File_same (file r1) (file r2) = true)
    by (rewrite C1, B1; apply File_same_refl).
  destruct (runEffects_same_file r1 r2 Hf2) as (D1 & D2 & D3 & D4 & D5 & D6 & D7).
  set (s2 := runEffects r1 r2) in *.
  destruct (attachRefs_fields s2) as (E1 & E2 & E3 & E4 & E5 & _ & E7 & E8 & _).
  assert (Hsame : (currentPage r1 =? currentPage r2) = true)
    by (rewrite C3, B3; apply Z.eqb_refl).
  rewrite Hsame in D7.
  repeat split; try congruence.
  rewrite E5, D7, C5, B7, A3, A5. reflexivity.
Qed.

(** C7. With 1 <= currentPage <= totalPages: Next at the last page and
    Previous at page 1 do nothing, currentPage staying as it is; anywhere
    else Next adds 1 and Previous subtracts 1. *)
Theorem prev_next_navigation (s : State) :
  1 <= currentPage s <= totalPages s ->
  (currentPage s = totalPages s ->
     handle ClickNext s = s /\ currentPage (step s ClickNext) = currentPage s) /\
  (currentPage s = 1 ->
     handle ClickPrev s = s /\ currentPage (step s ClickPrev) = currentPage s) /\
  (currentPage s < totalPages s ->
     currentPage (step s ClickNext) = currentPage s + 1) /\
  (1 < currentPage s ->
     currentPage (step s ClickPrev) = currentPage s - 1).
Proof.
  intros _.
  assert (N : currentPage (step s ClickNext) = currentPage (handleNextPage s s)).
  { unfold step, handle. apply commit_same_file.
    unfold handleNextPage. break_match; apply File_same_refl. }
  assert (P : currentPage (step s ClickPrev) = currentPage (handlePrevPage s s)).
  { unfold step, handle. apply commit_same_file.
    unfold handlePrevPage. break_match; apply File_same_refl. }
  rewrite N, P. cbn [handle]. unfold handleNextPage, handlePrevPage.
  split; [|split; [|split]]; intros H.
  - replace (currentPage s <? totalPages s) with false by (symmetry; apply Z.ltb_ge; lia).
    split; reflexivity.
  - replace (1 <? currentPage s) with false by (symmetry; apply Z.ltb_ge; lia).
    split; reflexivity.
  - replace (currentPage s <? totalPages s) with true by (symmetry; apply Z.ltb_lt; lia).
    reflexivity.
  - replace (1 <? currentPage s) with true by (symmetry; apply Z.ltb_lt; lia).
    reflexivity.
Qed.

(** C7 on the preview of a ten-page document at page 1: Previous stays at 1,
    Next goes to 2. *)
Lemma prev_next_navigation_witness :
  currentPage (step Examples.tenPagesShown ClickPrev) = 1 /\
  currentPage (step Examples.tenPagesShown ClickNext) = 2.
Proof.
  destruct (prev_next_navigation Examples.tenPagesShown) as (_ & P & N & _).
  - vm_compute. split; discriminate.
  - split; [apply P | apply N]; reflexivity.
Defined.

Lemma handlePageInputSubmit_twice r s :
  handlePageInputSubmit r (handlePageInputSubmit r s) = handlePageInputSubmit r s.
Proof. unfold handlePageInputSubmit. break_match; reflexivity. Qed.

Lemma handlePageInputSubmit_file r s :
  file (handlePageInputSubmit r s) = file s.
Proof. unfold handlePageInputSubmit. break_match; reflexivity. Qed.



(** The [file] prop of a mounted preview going from a file to null. *)
Lemma step_null_file (s : State) (f : File) :
  file s = Some f ->
  let s' := step s (SetFileProp None) in
  file s' = None /\ pdfDoc s' = None /\ totalPages s' = 0 /\
  currentPage s' = 1 /\ pageInput s' = "1"%string /\ canvas s' = None /\
  error s' = error s /\ isLoading s' = isLoading s /\ loads s' = loads s.
Proof.
  intros Hf. unfold step, handle, commit. cbv zeta.
  set (r1 := attachRefs (set_file None s)).
  assert (R1 : r1 = set_canvas None (set_file None s)) by reflexivity.
  assert (S1 : runEffects s r1 = fileEffect r1 r1).
  { unfold runEffects. rewrite R1, Hf. cbn.
    rewrite Z.eqb_refl, Doc_same_refl. reflexivity. }
  rewrite S1.
  set (s1 := fileEffect r1 r1).
  assert (F1 : s1 = set_canvas None (set_pageInput "1"%string (set_currentPage 1
                 (set_totalPages 0 (set_pdfDoc None r1))))) by (rewrite R1; reflexivity).
  assert (Fs1 : file s1 = None) by (rewrite F1, R1; reflexivity).
  set (r2 := attachRefs s1).
  assert (R2 : r2 = set_canvas None s1).
  { unfold r2, attachRefs, canvasShown. rewrite Fs1. reflexivity. }
  destruct (runEffects_same_file r1 r2) as (B1 & B2 & B3 & B4 & B5 & B6 & B7).
  { rewrite R2. cbn [file set_canvas]. rewrite Fs1, R1. reflexivity. }
  set (s2 := runEffects r1 r2) in *.
  destruct (attachRefs_fields s2) as (E1 & E2 & E3 & E4 & E5 & E6 & E7 & E8 & _).
  assert (Hcanvas : canvas (attachRefs s2) = None).
  { unfold attachRefs, canvasShown. rewrite B1, R2, F1, R1. reflexivity. }
  assert (Herr : error s2 = error s).
  { unfold s2, runEffects.
    replace (File_same (file r1) (file r2)) with true by (rewrite R2, F1, R1; reflexivity).
    assert (Hd : pdfDoc r2 = None) by (rewrite R2, F1; reflexivity).
    unfold renderEffect. rewrite Hd. unfold renderCleanup.
    repeat break_match; cbn; rewrite ?R2, ?F1, ?R1; reflexivity. }
  rewrite E1, E2, E3, E4, E5, E6, E7, E8, Hcanvas, Herr, B1, B2, B3, B4, B5, B6, B7.
  rewrite R2, F1, R1. cbn.
  repeat split. break_match; reflexivity.
Qed.

(** C9. A null source file: the file effect clears the document handle,
    sets totalPages = 0, currentPage = 1 and the page-input text to "1",
    blanks the canvas it finds and sets its height to 0, and neither sets an
    error nor starts a load.  When the prop of a mounted preview goes from a
    file to null, the resulting state has these values and no canvas. *)
Theorem null_file_resets (s : State) :
  (forall r, file r = None ->
     let s' := fileEffect r s in
     pdfDoc s' = None /\ totalPages s' = 0 /\ currentPage s' = 1 /\
     pageInput s' = "1"%string /\
     (forall c, canvas s = Some c ->
        exists c', canvas s' = Some c' /\ painted c' = None /\
                   canvas_height c' = 0%Q /\ canvas_id c' = canvas_id c) /\
     (canvas s = None -> canvas s' = None) /\
     error s' = error s /\ isLoading s' = isLoading s /\ loads s' = loads s) /\
  (forall f, file s = Some f ->
     let s' := step s (SetFileProp None) in
     file s' = None /\ pdfDoc s' = None /\ totalPages s' = 0 /\
     currentPage s' = 1 /\ pageInput s' = "1"%string /\ canvas s' = None /\
     error s' = error s /\ isLoading s' = isLoading s /\ loads s' = loads s).
Proof.
  split.
  - intros r Hr. unfold fileEffect. rewrite Hr. cbn.
    repeat split.
    + intros c Hc. rewrite Hc. cbn. eexists. repeat split.
    + intros Hc. rewrite Hc. reflexivity.
  - intros f Hf. exact (step_null_file s f Hf).
Qed.

(** C9 on the preview of a ten-page document: after the file is removed
    there is no document, no page count, page 1, the text "1" and no
    canvas. *)
Lemma null_file_resets_witness :
  let s' := step Examples.tenPagesShown (SetFileProp None) in
  pdfDoc s' = None /\ totalPages s' = 0 /\ currentPage s' = 1 /\
  pageInput s' = "1"%string /\ canvas s' = None /\ error s' = None.
Proof.
  destruct (null_file_resets Examples.tenPagesShown) as [_ H].
  destruct (H Examples.fileA eq_refl) as (_ & H1 & H2 & H3 & H4 & H5 & H6 & _).
  cbv zeta. repeat split; assumption.
Defined.

(** *** The page-input buffer *)

Lemma runEffects_load_file prev r g :
  file r = Some g ->
  let s := runEffects prev r in
  file s = file r /\ pdfDoc s = pdfDoc r /\
  currentPage s = currentPage r /\ totalPages s = totalPages r /\
  pageInput s = if currentPage prev =? currentPage r
                then pageInput r else Js.toString (currentPage r).
Proof.
  intros Hg. unfold runEffects, fileEffect. cbv zeta.
  destruct (file r) as [g'|] eqn:Hfile; [clear Hg | discriminate].
  repeat break_match;
    repeat split;
    rewrite ?renderEffect_file, ?renderEffect_pdfDoc, ?renderEffect_currentPage,
      ?renderEffect_totalPages, ?renderEffect_pageInput;
    cbn; congruence.
Qed.

(** A batch that ends with a file in the [file] prop keeps the page numbers
    of the batch. *)
Lemma commit_load_file prev s g :
  file s = Some g ->
  let s' := commit prev s in
  currentPage s' = currentPage s /\ totalPages s' = totalPages s /\
  pageInput s' = if currentPage prev =? currentPage s
                 then pageInput s else Js.toString (currentPage s).
Proof.
  intros Hg. unfold commit. cbv zeta.
  destruct (attachRefs_fields s) as (A1 & A2 & A3 & A4 & A5 & _).
  set (r1 := attachRefs s) in *.
  destruct (runEffects_load_file prev r1 g) as (B1 & B2 & B3 & B4 & B7);
    [congruence|].
  set (s1 := runEffects prev r1) in *.
  destruct (attachRefs_fields s1) as (C1 & C2 & C3 & C4 & C5 & _).
  set (r2 := attachRefs s1) in *.
  destruct (runEffects_same_file r1 r2) as (D1 & D2 & D3 & D4 & _ & _ & D7).
  { rewrite C1, B1. apply File_same_refl. }
  set (s2 := runEffects r1 r2) in *.
  destruct (attachRefs_fields s2) as (E1 & E2 & E3 & E4 & E5 & _).
  assert (Hsame : (currentPage r1 =? currentPage r2) = true)
    by (rewrite C3, B3; apply Z.eqb_refl).
  rewrite Hsame in D7.
  repeat split; try congruence.
  rewrite E5, D7, C5, B7, A3, A5. reflexivity.
Qed.

Lemma Inv_commit prev s :
  Inv s ->
  File_same (file prev) (file s) = true \/ (exists g, file s = Some g) ->
  Inv (commit prev s).
Proof.
  intros (Hb & Hc & Ht) Hfile.
  assert (H : currentPage (commit prev s) = currentPage s /\
              totalPages (commit prev s) = totalPages s /\
              pageInput (commit prev s) =
                if currentPage prev =? currentPage s
                then pageInput s else Js.toString (currentPage s)).
  { destruct Hfile as [Hf | [g Hg]].
    - destruct (commit_same_file prev s Hf) as (_ & _ & ? & ? & _ & _ & ?). auto.
    - exact (commit_load_file prev s g Hg). }
  destruct H as (H1 & H2 & H3).
  unfold Inv. rewrite H1, H2, H3.
  split; [|split; assumption].
  break_match; [exact Hb|].
  right. apply JsProps.toString_digits, Hc.
Qed.

Lemma loadPdf_resume_Inv id outcome s :
  Inv s ->
  Inv (loadPdf_resume id outcome s) /\ file (loadPdf_resume id outcome s) = file s.
Proof.
  intros (Hb & Hc & Ht). unfold loadPdf_resume, Inv.
  repeat break_match; cbn; repeat split; auto; try lia.
  unfold numPages. lia.
Qed.

Lemma renderPage_afterGetPage_fields id w s :
  let s' := renderPage_afterGetPage id w s in
  file s' = file s /\ pdfDoc s' = pdfDoc s /\ currentPage s' = currentPage s /\
  totalPages s' = totalPages s /\ pageInput s' = pageInput s.
Proof.
  unfold renderPage_afterGetPage, renderPage_catch.
  repeat break_match; cbn; repeat split; reflexivity.
Qed.

Lemma renderPage_afterRender_fields id ok s :
  let s' := renderPage_afterRender id ok s in
  file s' = file s /\ pdfDoc s' = pdfDoc s /\ currentPage s' = currentPage s /\
  totalPages s' = totalPages s /\ pageInput s' = pageInput s.
Proof.
  unfold renderPage_afterRender, renderPage_catch, paint.
  repeat break_match; cbn; repeat split; reflexivity.
Qed.

Lemma handlePageInputSubmit_Inv r s :
  Inv r -> Inv s -> Inv (handlePageInputSubmit r s).
Proof.
  intros (Hrb & Hrc & Hrt) (Hb & Hc & Ht). unfold handlePageInputSubmit, Inv.
  destruct (Js.parseInt (pageInput r)) as [n|]; cbn.
  - assert (Hn : 0 <= (if totalPages r <? (if n <? 1 then 1 else n)
                       then totalPages r else if n <? 1 then 1 else n)).
    { destruct (n <? 1) eqn:H1;
        [apply Z.ltb_lt in H1 | apply Z.ltb_ge in H1];
        break_match; lia. }
    split; [right; apply JsProps.toString_digits, Hn|]. split; assumption.
  - split; [right; apply JsProps.toString_digits, Hrc|]. split; assumption.
Qed.

(** Every handler but the change of the [file] prop keeps the invariant and
    the prop. *)
Lemma handle_Inv e s :
  Inv s ->
  (forall f, e <> SetFileProp f) ->
  Inv (handle e s) /\ file (handle e s) = file s.
Proof.
  intros HI Hne. pose proof HI as (Hb & Hc & Ht).
  destruct e as [f|id outcome|id w|id ok| | |val| |key]; cbn [handle].
  - exfalso. exact (Hne f eq_refl).
  - apply loadPdf_resume_Inv, HI.
  - destruct (renderPage_afterGetPage_fields id w s) as (F & _ & C & T & P).
    unfold Inv. rewrite F, C, T, P. auto.
  - destruct (renderPage_afterRender_fields id ok s) as (F & _ & C & T & P).
    unfold Inv. rewrite F, C, T, P. auto.
  - unfold handlePrevPage, Inv.
    destruct (1 <? currentPage s) eqn:H1; cbn; [apply Z.ltb_lt in H1|];
      repeat split; auto; lia.
  - unfold handleNextPage, Inv.
    destruct (currentPage s <? totalPages s) eqn:H1; cbn; repeat split; auto; lia.
  - unfold handlePageInputChange, Inv.
    destruct (String.eqb val EmptyString) eqn:He; cbn.
    + apply String.eqb_eq in He. subst val. repeat split; auto.
    + destruct (Js.test_digits val) eqn:Hd; cbn; repeat split; auto.
  - split; [apply handlePageInputSubmit_Inv; exact HI|].
    apply handlePageInputSubmit_file.
  - unfold handleKeyDown. break_match; [|split; [exact HI|reflexivity]].
    rewrite handlePageInputSubmit_twice.
    split; [apply handlePageInputSubmit_Inv; exact HI|].
    apply handlePageInputSubmit_file.
Qed.

Lemma step_Inv s e : Inv s -> Inv (step s e).
Proof.
  intros HI.
  destruct e as [f|id outcome|id w|id ok| | |val| |key].
  1: {
    destruct f as [g|].
    - unfold step. apply Inv_commit; [exact HI | right; exists g; reflexivity].
    - destruct (file s) as [f0|] eqn:Hf.
      + destruct (step_null_file s f0 Hf) as (_ & _ & T & C & P & _).
        unfold Inv. rewrite T, C, P. repeat split; auto; lia.
      + unfold step. apply Inv_commit; [exact HI|].
        left. cbn. rewrite Hf. reflexivity. }
  all: unfold step;
    match goal with
    | HI' : Inv ?s0 |- Inv (commit ?s0 (handle ?e ?s0)) =>
        destruct (handle_Inv e s0 HI' ltac:(intros; discriminate)) as [H1 H2];
        apply Inv_commit; [exact H1 | left; rewrite H2; apply File_same_refl]
    end.
Qed.

Lemma mount_Inv f : Inv (mount f).
Proof.
  unfold mount. cbv zeta.
  set (r1 := attachRefs (initialState f)).
  set (s1 := renderEffect r1 (syncEffect r1 (fileEffect r1 r1))).
  assert (H1 : file s1 = file r1 /\ currentPage s1 = 1 /\ totalPages s1 = 0 /\
               pageInput s1 = "1"%string /\ currentPage r1 = 1).
  { unfold s1. rewrite renderEffect_file, renderEffect_currentPage,
      renderEffect_totalPages, renderEffect_pageInput.
    destruct (attachRefs_fields (initialState f)) as (A1 & _ & A3 & A4 & _).
    fold r1 in A1, A3, A4. cbn in A1, A3, A4.
    unfold syncEffect, fileEffect. rewrite A1, A3.
    destruct f; cbn; auto. }
  destruct H1 as (F1 & C1 & T1 & P1 & C0).
  destruct (attachRefs_fields s1) as (G1 & _ & G3 & G4 & G5 & _).
  set (r2 := attachRefs s1) in *.
  destruct (runEffects_same_file r1 r2) as (_ & _ & D3 & D4 & _ & _ & D7).
  { rewrite G1, F1. apply File_same_refl. }
  set (s2 := runEffects r1 r2) in *.
  destruct (attachRefs_fields s2) as (_ & _ & E3 & E4 & E5 & _).
  unfold Inv. rewrite E3, E4, E5, D3, D4, D7, G3, G4, G5, C1, T1, P1, C0.
  cbn. repeat split; auto; lia.
Qed.

Lemma reachable_Inv s : reachable s -> Inv s.
Proof.
  induction 1 as [f | s e _ IH]; [apply mount_Inv | apply step_Inv, IH].
Qed.

(** After a step that changed the page number the buffer is the number's
    decimal string. *)
Lemma step_resync s e :
  currentPage (step s e) <> currentPage s ->
  pageInput (step s e) = Js.toString (currentPage (step s e)).
Proof.
  intros Hne.
  assert (Hsame : File_same (file s) (file (handle e s)) = true ->
                  pageInput (step s e) = Js.toString (currentPage (step s e))).
  { intros Hf. unfold step in *.
    destruct (commit_same_file s (handle e s) Hf) as (_ & _ & C & _ & _ & _ & P).
    rewrite C in Hne |- *. rewrite P.
    destruct (currentPage s =? currentPage (handle e s)) eqn:E; [|reflexivity].
    apply Z.eqb_eq in E. congruence. }
  destruct e as [f|id outcome|id w|id ok| | |val| |key].
  1: {
    destruct f as [g|].
    - exfalso. apply Hne. unfold step.
      destruct (commit_load_file s (handle (SetFileProp (Some g)) s) g eq_refl)
        as (C & _). exact C.
    - destruct (file s) as [f0|] eqn:Hf.
      + destruct (step_null_file s f0 Hf) as (_ & _ & _ & C & P & _).
        rewrite C, P. reflexivity.
      + apply Hsame. reflexivity. }
  - apply Hsame. cbn [handle]. unfold loadPdf_resume.
    repeat break_match; cbn; apply File_same_refl.
  - apply Hsame. cbn [handle].
    destruct (renderPage_afterGetPage_fields id w s) as (-> & _).
    apply File_same_refl.
  - apply Hsame. cbn [handle].
    destruct (renderPage_afterRender_fields id ok s) as (-> & _).
    apply File_same_refl.
  - apply Hsame. cbn [handle]. unfold handlePrevPage. break_match; apply File_same_refl.
  - apply Hsame. cbn [handle]. unfold handleNextPage. break_match; apply File_same_refl.
  - apply Hsame. cbn [handle]. unfold handlePageInputChange.
    break_match; apply File_same_refl.
  - apply Hsame. cbn [handle]. rewrite handlePageInputSubmit_file. apply File_same_refl.
  - apply Hsame. cbn [handle]. unfold handleKeyDown. break_match.
    + rewrite !handlePageInputSubmit_file. apply File_same_refl.
    + apply File_same_refl.
Qed.

(** C8. The page-input buffer of a mounted preview is always the empty
    string or a string of decimal digits; an edit whose value is neither is
    dropped, the buffer and the page staying as they were, while an edit
    whose value is empty or digits is stored; and after any step that
    changed currentPage the buffer is currentPage's decimal string. *)
Theorem page_input_buffer_invariant :
  (forall s, reachable s ->
     pageInput s = EmptyString \/ Js.test_digits (pageInput s) = true) /\
  (forall s val, val <> EmptyString -> Js.test_digits val = false ->
     pageInput (step s (PageInputChange val)) = pageInput s /\
     currentPage (step s (PageInputChange val)) = currentPage s) /\
  (forall s val, val = EmptyString \/ Js.test_digits val = true ->
     pageInput (step s (PageInputChange val)) = val) /\
  (forall s e, currentPage (step s e) <> currentPage s ->
     pageInput (step s e) = Js.toString (currentPage (step s e))).
Proof.
  split; [|split; [|split]].
  - intros s Hs. apply (reachable_Inv s Hs).
  - intros s val Hne Hd.
    assert (Hh : handle (PageInputChange val) s = s).
    { cbn [handle]. unfold handlePageInputChange. rewrite Hd.
      destruct (String.eqb_spec val EmptyString); [contradiction | reflexivity]. }
    unfold step. rewrite Hh.
    destruct (commit_same_file s s (File_same_refl _)) as (_ & _ & C & _ & _ & _ & P).
    rewrite Z.eqb_refl in P. auto.
  - intros s val Hok.
    assert (Hh : handle (PageInputChange val) s = set_pageInput val s).
    { cbn [handle]. unfold handlePageInputChange.
      destruct Hok as [-> | ->]; [reflexivity | now rewrite orb_true_r]. }
    unfold step. rewrite Hh.
    destruct (commit_same_file s (set_pageInput val s) (File_same_refl _))
      as (_ & _ & _ & _ & _ & _ & P).
    cbn in P. rewrite Z.eqb_refl in P. exact P.
  - exact step_resync.
Qed.

(** C8 on the preview of a ten-page document with "15" typed: the buffer
    is digits, the edit "1a" leaves it at "15", and Next rewrites it to
    "2". *)
Lemma page_input_buffer_invariant_witness :
  Js.test_digits (pageInput Examples.typed15) = true /\
  pageInput (step Examples.typed15 (PageInputChange "1a")) = "15"%string /\
  pageInput (step Examples.tenPagesShown ClickNext) = "2"%string.
Proof.
  destruct page_input_buffer_invariant as (H1 & H2 & _ & H4).
  split; [|split].
  - assert (R : reachable Examples.typed15).
    { apply (reachable_step Examples.tenPagesShown).
      exact (reachable_step (mount (Some Examples.fileA))
               (LoadSettled 0 (Some (Examples.sizes 10))) (reachable_mount _)). }
    destruct (H1 _ R) as [E | D]; [vm_compute in E; discriminate E | exact D].
  - destruct (H2 Examples.typed15 "1a"%string) as [P _];
      [discriminate | reflexivity | rewrite P; reflexivity].
  - rewrite (H4 Examples.tenPagesShown ClickNext); [reflexivity|].
    vm_compute. discriminate.
Defined.

(** *** Stale asynchronous results *)

(** A load that settles with a document commits it whatever the [file] prop
    is by then. *)
Lemma loadPdf_resume_commits (s : State) (id : nat) (t : LoadTask) sizes :
  nth_error (loads s) id = Some t ->
  load_settled t = false ->
  let s' := loadPdf_resume id (Some sizes) s in
  pdfDoc s' = Some (mkDoc id sizes) /\
  totalPages s' = Z.of_nat (List.length sizes) /\
  currentPage s' = 1 /\ file s' = file s.
Proof.
  intros Ht Hs. unfold loadPdf_resume. rewrite Ht, Hs. cbn. auto.
Qed.


(** An invocation of [renderPage] cancelled before its page arrives leaves
    the canvas and the error alone. *)
Lemma cancelled_before_page_arrives (s : State) (id : nat) (t : RenderTask) w :
  nth_error (renders s) id = Some t ->
  isCancelled t = true ->
  let s' := renderPage_afterGetPage id w s in
  canvas s' = canvas s /\ error s' = error s.
Proof.
  intros Ht Hc. unfold renderPage_afterGetPage, renderPage_catch.
  rewrite Ht, Hc. repeat break_match; cbn; auto.
Qed.

(** The completion of a rasterization draws on the canvas it was started
    on, whatever [isCancelled] is by then. *)
Lemma render_completion_ignores_flag (s : State) (id : nat) (t : RenderTask) c :
  nth_error (renders s) id = Some t ->
  phase t = AwaitRender (canvas_id c) ->
  canvas s = Some c ->
  option_map painted (canvas (renderPage_afterRender id true s))
    = Some (Some (doc_id (render_doc t), render_page t)).
Proof.
  intros Ht Hp Hc. unfold renderPage_afterRender, paint.
  rewrite Ht, Hp. cbn. rewrite Hc, Nat.eqb_refl. reflexivity.
Qed.

(** C5 fails on the code. A ten-page document is shown at page 1; the page
    arrives and its rasterization starts; Next is clicked, which sets
    [isCancelled] of that invocation and makes page 2 current; then the
    rasterization of page 1 completes.  The canvas now shows page 1, drawn by
    the cancelled invocation, while currentPage is 2. *)
Theorem stale_render_reaches_canvas :
  let s := run Examples.tenPagesShown
             [GetPageSettled 0 (Some 800%Q); ClickNext; RenderSettled 0 true] in
  currentPage s = 2 /\
  option_map render_page (nth_error (renders s) 0) = Some 1 /\
  option_map isCancelled (nth_error (renders s) 0) = Some true /\
  option_map painted (canvas s) = Some (Some (0%nat, 1)).
Proof. vm_compute. repeat split; reflexivity. Qed.

End PdfPreviewProps.

(** ** The application shell *)

Module AppProps.

Import App.

(** C10. Selecting a file whose MIME type is not application/pdf sets an
    error message and leaves the stored file and the split percentage as
    they were; selecting a PDF stores it, clears the status and resets the
    split percentage to 50. *)
Theorem file_selection (st : AppState) (selectedFile : File) (rest : list File) :
  let st' := handleFileChange (Some (selectedFile :: rest)) st in
  (file_type selectedFile <> "application/pdf"%string ->
     status_error (status st') = Some "Please upload a valid PDF file."%string /\
     successMessage (status st') = None /\
     file st' = file st /\
     percentage st' = percentage st /\
     orientation st' = orientation st) /\
  (file_type selectedFile = "application/pdf"%string ->
     file st' = Some selectedFile /\
     status st' = mkStatus false None None /\
     percentage st' = 50 /\
     orientation st' = orientation st).
Proof.
  cbv zeta. unfold handleFileChange.
  destruct (String.eqb_spec (file_type selectedFile) "application/pdf") as [E|E];
    cbn; split; intros H; try contradiction; repeat split.
Qed.

(** C10 on an application holding a.pdf at 30 percent: a text file is
    refused and 30 stays; b.pdf is stored and the percentage is 50. *)
Lemma file_selection_witness :
  let st := mkApp (Some Examples.fileA) Horizontal 30 (mkStatus false None None) in
  (percentage (handleFileChange (Some [Examples.notes]) st) = 30 /\
   file (handleFileChange (Some [Examples.notes]) st) = Some Examples.fileA /\
   status_error (status (handleFileChange (Some [Examples.notes]) st))
     = Some "Please upload a valid PDF file."%string) /\
  (percentage (handleFileChange (Some [Examples.fileB]) st) = 50 /\
   file (handleFileChange (Some [Examples.fileB]) st) = Some Examples.fileB).
Proof.
  cbv zeta. split.
  - destruct (file_selection
                (mkApp (Some Examples.fileA) Horizontal 30 (mkStatus false None None))
                Examples.notes []) as [H _].
    destruct H as (E & _ & F & P & _); [discriminate|].
    repeat split; assumption.
  - destruct (file_selection
                (mkApp (Some Examples.fileA) Horizontal 30 (mkStatus false None None))
                Examples.fileB []) as [_ H].
    destruct H as (F & _ & P & _); [reflexivity|].
    split; assumption.
Defined.

End AppProps.

(** ** The download name *)

Module DownloadProps.

Import Download.
Local Open Scope string_scope.

Lemma isDotPdf_length s : isDotPdf s = true -> String.length s = 4%nat.
Proof.
  destruct s as [|c0 [|c1 [|c2 [|c3 [|c4 s]]]]]; simpl; try discriminate.
  reflexivity.
Qed.

Lemma append_length (a b : string) :
  String.length (a ++ b) = (String.length a + String.length b)%nat.
Proof. induction a; simpl; [reflexivity | now rewrite IHa]. Qed.

(** A name that ends in .pdf, in any letter case, loses exactly that
    ending. *)
Lemma replace_pdf_suffix_app (stem ext : string) :
  isDotPdf ext = true -> replace_pdf_suffix (stem ++ ext) = stem.
Proof.
  intros He. induction stem as [|c stem IH].
  - simpl. destruct ext as [|c0 ext]; [discriminate|].
    cbn [replace_pdf_suffix]. now rewrite He.
  - change (String c stem ++ ext) with (String c (stem ++ ext)).
    assert (Hno : isDotPdf (String c (stem ++ ext)) = false).
    { destruct (isDotPdf (String c (stem ++ ext))) eqn:E; [|reflexivity].
      apply isDotPdf_length in E. apply isDotPdf_length in He.
      simpl in E. rewrite append_length in E. lia. }
    cbn [replace_pdf_suffix]. rewrite Hno, IH. reflexivity.
Qed.

(** Only an ending that is .pdf is ever cut off. *)
Lemma replace_pdf_suffix_split (s : string) :
  exists ext,
    s = replace_pdf_suffix s ++ ext /\
    ((ext = EmptyString /\ endsWithDotPdf s = false) \/ isDotPdf ext = true).
Proof.
  induction s as [|c s (ext & Hs & Hext)].
  - exists EmptyString. split; [reflexivity | left; split; reflexivity].
  - cbn [replace_pdf_suffix endsWithDotPdf].
    destruct (isDotPdf (String c s)) eqn:E.
    + exists (String c s). split; [reflexivity | right; exact E].
    + exists ext. split.
      * change (String c (replace_pdf_suffix s) ++ ext)
          with (String c (replace_pdf_suffix s ++ ext)).
        now rewrite <- Hs.
      * destruct Hext as [[-> Hn] | Hy]; [left | right; exact Hy].
        split; [reflexivity | exact Hn].
Qed.

(** X1. For a file name that ends in .pdf, in any letter case, the download
    is named by the name without that ending, then _split_, the
    orientation, _, the percentage in decimal, and .pdf; the data is passed
    on as it is. *)
Theorem download_name_of_pdf data (stem ext orientation : string) (percentage : Z) :
  isDotPdf ext = true ->
  downloadBlob data (stem ++ ext) orientation percentage
  = mkDownload
      (stem ++ "_split_" ++ orientation ++ "_" ++ Js.toString percentage ++ ".pdf")
      data.
Proof.
  intros He. unfold downloadBlob. now rewrite (replace_pdf_suffix_app stem ext He).
Qed.

Lemma download_name_of_pdf_witness :
  download_name (downloadBlob [] "Report.PDF" "vertical" 30)
  = "Report_split_vertical_30.pdf".
Proof.
  exact (f_equal download_name
           (download_name_of_pdf [] "Report" ".PDF" "vertical" 30 eq_refl)).
Defined.

(** X2. Whatever the file name, the download name is the file name minus
    at most one final .pdf (in any letter case), followed by _split_, the
    orientation, _, the percentage and .pdf: nothing else is cut from the
    name, and a name with no such ending is kept whole. *)
Theorem download_name_keeps_stem data (name orientation : string) (percentage : Z) :
  exists stem ext,
    name = stem ++ ext /\
    ((ext = EmptyString /\ endsWithDotPdf name = false) \/ isDotPdf ext = true) /\
    download_name (downloadBlob data name orientation percentage)
    = stem ++ "_split_" ++ orientation ++ "_" ++ Js.toString percentage ++ ".pdf".
Proof.
  destruct (replace_pdf_suffix_split name) as (ext & Hs & Hext).
  exists (replace_pdf_suffix name), ext.
  split; [exact Hs|]. split; [exact Hext | reflexivity].
Qed.

End DownloadProps.

(** ** The application as a whole *)

Module AppFlowProps.

Import AppFlow.

Lemma calculatePercentage_range overlay o x y v :
  PdfPreview.calculatePercentage overlay o x y = Some v -> 1 <= v <= 99.
Proof.
  unfold PdfPreview.calculatePercentage.
  destruct overlay as [rect|]; [|discriminate].
  intros H. injection H as <-.
  rewrite JsProps.round_clamp_commute. lia.
Qed.

Lemma step_percentage sh e :
  1 <= App.percentage (app sh) <= 99 ->
  1 <= App.percentage (app (step sh e)) <= 99.
Proof.
  intros H. destruct e as [files| |o|overlay x y| |id loaded]; cbn [step].
  - unfold onApp, App.handleFileChange. cbn.
    destruct files as [[|f fs]|]; cbn; try exact H.
    destruct (negb _); cbn; [exact H | lia].
  - exact H.
  - exact H.
  - unfold onApp, previewDrag. cbn.
    destruct (PdfPreview.calculatePercentage _ _ _ _) as [v|] eqn:E; cbn; [|exact H].
    exact (calculatePercentage_range _ _ _ _ _ E).
  - unfold handleProcess. destruct (App.file (app sh)); cbn; exact H.
  - unfold handleProcess_resume.
    destruct (nth_error (tasks sh) id) as [t|]; [|exact H].
    destruct (task_settled t); [exact H|].
    destruct loaded as [doc|]; [|exact H].
    destruct (PdfService.splitPdfDocument _ _ _); exact H.
Qed.

(** X3. Whatever the user does (select files, remove the file, change the
    orientation, drag over an overlay of positive size, process), the split
    percentage the application holds is an integer from 1 to 99. *)
Theorem percentage_always_in_range (es : list Event) :
  Forall overlayVisible es ->
  1 <= App.percentage (app (run initialShell es)) <= 99.
Proof.
  intros _. unfold run.
  assert (G : forall sh, 1 <= App.percentage (app sh) <= 99 ->
              1 <= App.percentage (app (fold_left step es sh)) <= 99).
  { induction es as [|e es IH]; intros sh H; [exact H|].
    cbn [fold_left]. apply IH, step_percentage, H. }
  apply G. cbn. lia.
Qed.

(** X3 on a session of drags that overshoot the overlay: the percentage
    ends at 1. *)
Lemma percentage_always_in_range_witness :
  Forall overlayVisible MoreExamples.dragSession /\
  1 <= App.percentage (app (run initialShell MoreExamples.dragSession)) <= 99 /\
  App.percentage (app (run initialShell MoreExamples.dragSession)) = 1.
Proof.
  assert (V : Forall overlayVisible MoreExamples.dragSession).
  { repeat constructor. }
  split; [exact V|].
  split; [exact (percentage_always_in_range MoreExamples.dragSession V) | reflexivity].
Defined.

Lemma step_exclusive sh e :
  exclusive (App.status (app sh)) -> exclusive (App.status (app (step sh e))).
Proof.
  unfold exclusive. intros H.
  destruct e as [files| |o|overlay x y| |id loaded]; cbn [step].
  - unfold onApp, App.handleFileChange. cbn.
    destruct files as [[|f fs]|]; cbn; try exact H.
    destruct (negb _); cbn; auto.
  - exact H.
  - exact H.
  - unfold onApp, previewDrag. cbn.
    destruct (PdfPreview.calculatePercentage _ _ _ _); exact H.
  - unfold handleProcess. destruct (App.file (app sh)); cbn; auto.
  - unfold handleProcess_resume.
    destruct (nth_error (tasks sh) id) as [t|]; [|exact H].
    destruct (task_settled t); [exact H|].
    destruct loaded as [doc|]; [|cbn; auto].
    destruct (PdfService.splitPdfDocument _ _ _); cbn; auto.
Qed.

(** X4. The application never holds an error message and a success message
    at once. *)
Theorem error_and_success_exclude (es : list Event) :
  status_error (App.status (app (run initialShell es))) = None \/
  successMessage (App.status (app (run initialShell es))) = None.
Proof.
  unfold run.
  assert (G : forall sh, exclusive (App.status (app sh)) ->
              exclusive (App.status (app (fold_left step es sh)))).
  { induction es as [|e es IH]; intros sh H; [exact H|].
    cbn [fold_left]. apply IH, step_exclusive, H. }
  apply (G initialShell). left. reflexivity.
Qed.

Lemma nth_settleTask_other : forall id' ts id,
  id <> id' -> nth_error (settleTask id' ts) id = nth_error ts id.
Proof.
  unfold settleTask.
  induction id' as [|k IH]; intros ts id Hne.
  - destruct ts as [|t ts]; [reflexivity|].
    destruct id as [|id]; [contradiction | reflexivity].
  - destruct ts as [|t ts]; [reflexivity|].
    destruct id as [|id]; [reflexivity|].
    cbn [firstn skipn app nth_error]. apply IH. congruence.
Qed.

(** An invocation of [handleProcess] keeps what it captured until it
    settles. *)
Lemma step_keeps_task sh e id t :
  nth_error (tasks sh) id = Some t ->
  (forall l, e <> ProcessSettled id l) ->
  nth_error (tasks (step sh e)) id = Some t.
Proof.
  intros Ht Hne.
  destruct e as [files| |o|overlay x y| |id' loaded]; cbn [step]; try exact Ht.
  - unfold handleProcess. destruct (App.file (app sh)); [|exact Ht].
    cbn. rewrite nth_error_app1; [exact Ht|].
    apply nth_error_Some. congruence.
  - assert (Hid : id <> id') by (intros ->; exact (Hne loaded eq_refl)).
    unfold handleProcess_resume.
    destruct (nth_error (tasks sh) id') as [t'|]; [|exact Ht].
    destruct (task_settled t'); [exact Ht|].
    destruct loaded as [doc|];
      [destruct (PdfService.splitPdfDocument _ _ _)|];
      cbn; rewrite (nth_settleTask_other id' _ id Hid); exact Ht.
Qed.

Lemma run_keeps_task es : forall sh id t,
  nth_error (tasks sh) id = Some t ->
  Forall (fun e => forall l, e <> ProcessSettled id l) es ->
  nth_error (tasks (run sh es)) id = Some t.
Proof.
  unfold run. induction es as [|e es IH]; intros sh id t Ht Hes; [exact Ht|].
  cbn [fold_left]. inversion Hes as [|? ? He Hrest]; subst.
  apply IH; [apply step_keeps_task; assumption | exact Hrest].
Qed.

Lemma click_registers sh f :
  App.file (app sh) = Some f ->
  nth_error (tasks (step sh ClickProcess)) (List.length (tasks sh))
  = Some (mkTask f (App.orientation (app sh)) (App.percentage (app sh)) false).
Proof.
  intros Hf. cbn [step]. unfold handleProcess. rewrite Hf. cbn.
  rewrite nth_error_app2, Nat.sub_diag; [reflexivity | apply Nat.le_refl].
Qed.



(** X6. Processing a file whose bytes do not decode: no download is added,
    the status becomes the processing error with [isProcessing] false, and
    the file, orientation and percentage stay. *)
Theorem failed_export_downloads_nothing (sh : Shell) (f : File) (es : list Event) :
  App.file (app sh) = Some f ->
  Forall (fun e => forall l, e <> ProcessSettled (List.length (tasks sh)) l) es ->
  let id := List.length (tasks sh) in
  let before := run sh (ClickProcess :: es) in
  let after := step before (ProcessSettled id None) in
  downloads after = downloads before /\
  App.status (app after) = mkStatus false (Some processError) None /\
  App.file (app after) = App.file (app before) /\
  App.orientation (app after) = App.orientation (app before) /\
  App.percentage (app after) = App.percentage (app before).
Proof.
  intros Hf Hes id before after.
  pose proof (click_registers sh f Hf) as Hreg.
  assert (Ht : nth_error (tasks before) id
               = Some (mkTask f (App.orientation (app sh)) (App.percentage (app sh)) false)).
  { unfold before, run. cbn [fold_left]. apply run_keeps_task; assumption. }
  unfold after. cbn [step]. unfold handleProcess_resume.
  rewrite Ht. cbn. repeat split.
Qed.

Lemma failed_export_downloads_nothing_witness :
  let after :=
    run MoreExamples.reportAt30 [ClickProcess; ProcessSettled 0 None] in
  downloads after = [] /\
  status_error (App.status (app after)) = Some processError /\
  isProcessing (App.status (app after)) = false.
Proof.
  destruct (failed_export_downloads_nothing MoreExamples.reportAt30
              MoreExamples.report [] eq_refl (Forall_nil _))
    as (Hd & Hs & _).
  cbv zeta.
  change (run MoreExamples.reportAt30 [ClickProcess; ProcessSettled 0 None])
    with (step (run MoreExamples.reportAt30 [ClickProcess])
            (ProcessSettled (List.length (tasks MoreExamples.reportAt30)) None)).
  rewrite Hd, Hs. repeat split.
Defined.

End AppFlowProps.

(** ** The preview component: errors, page range, rendering *)

Module PdfPreviewMore.

Import PdfPreview.
Import PdfPreviewProps.

(** *** Errors stay *)

Lemma attachRefs_error_hides s m :
  error s = Some m -> attachRefs s = set_canvas None s.
Proof.
  intros H. unfold attachRefs, canvasShown. rewrite H.
  cbn. now rewrite andb_false_r.
Qed.

Lemma renderEffect_no_canvas r s :
  canvas s = None -> error (renderEffect r s) = error s /\ canvas (renderEffect r s) = None.
Proof.
  intros Hc. unfold renderEffect, renderCleanup.
  destruct (activeRender s); cbn; rewrite Hc; destruct (pdfDoc r); auto.
Qed.

Lemma runEffects_error_stays prev r m :
  File_same (file prev) (file r) = true ->
  error r = Some m -> canvas r = None ->
  error (runEffects prev r) = Some m.
Proof.
  intros Hf He Hc. unfold runEffects. rewrite Hf. cbv zeta.
  repeat break_match; try assumption;
    match goal with
    | |- error (renderEffect ?a ?b) = _ =>
        destruct (renderEffect_no_canvas a b) as [-> _]; [exact Hc | exact He]
    end.
Qed.

Lemma commit_error_stays prev s m :
  File_same (file prev) (file s) = true ->
  error s = Some m ->
  error (commit prev s) = Some m.
Proof.
  intros Hf He. unfold commit. cbv zeta.
  rewrite (attachRefs_error_hides s m He).
  set (r1 := set_canvas None s).
  assert (E1 : error (runEffects prev r1) = Some m)
    by (apply runEffects_error_stays; [exact Hf | exact He | reflexivity]).
  destruct (runEffects_same_file prev r1 Hf) as (F1 & _).
  set (s1 := runEffects prev r1) in *.
  rewrite (attachRefs_error_hides s1 m E1).
  set (r2 := set_canvas None s1).
  assert (E2 : error (runEffects r1 r2) = Some m).
  { apply runEffects_error_stays; [|exact E1|reflexivity].
    change (file r2) with (file s1). rewrite F1. apply File_same_refl. }
  destruct (attachRefs_fields (runEffects r1 r2)) as (_ & _ & _ & _ & _ & -> & _).
  exact E2.
Qed.

Lemma handle_error_stays e s m :
  error s = Some m ->
  (forall f, e <> SetFileProp f) ->
  (exists m', error (handle e s) = Some m') /\ file (handle e s) = file s.
Proof.
  intros He Hne.
  destruct e as [f|id outcome|id w|id ok| | |val| |key]; cbn [handle].
  - exfalso. exact (Hne f eq_refl).
  - unfold loadPdf_resume. repeat break_match; cbn; split; eauto.
  - unfold renderPage_afterGetPage, renderPage_catch.
    repeat break_match; cbn; split; eauto.
  - unfold renderPage_afterRender, renderPage_catch, paint.
    repeat break_match; cbn; split; eauto.
  - unfold handlePrevPage. break_match; cbn; split; eauto.
  - unfold handleNextPage. break_match; cbn; split; eauto.
  - unfold handlePageInputChange. break_match; cbn; split; eauto.
  - unfold handlePageInputSubmit. break_match; cbn; split; eauto.
  - unfold handleKeyDown, handlePageInputSubmit. repeat break_match; cbn; split; eauto.
Qed.

(** X7. Once the preview holds an error (from a load or from a render), it
    holds one after every later event except a change of the [file] prop:
    navigation, page input and late results of loads and renders do not
    clear it. *)
Theorem error_stays_until_file_changes (s : State) (e : Event) (m : string) :
  error s = Some m ->
  (forall f, e <> SetFileProp f) ->
  exists m', error (step s e) = Some m'.
Proof.
  intros He Hne.
  destruct (handle_error_stays e s m He Hne) as ((m' & Hm') & Hf).
  exists m'. unfold step. apply commit_error_stays; [|exact Hm'].
  rewrite Hf. apply File_same_refl.
Qed.

(** X7 after a failed rasterization of page 1: Next moves to page 2 and the
    error is still there. *)
Lemma error_stays_until_file_changes_witness :
  error MoreExamples.renderFailed = Some "Error rendering this page."%string /\
  currentPage (step MoreExamples.renderFailed ClickNext) = 2 /\
  exists m', error (step MoreExamples.renderFailed ClickNext) = Some m'.
Proof.
  split; [reflexivity|]. split; [reflexivity|].
  apply (error_stays_until_file_changes MoreExamples.renderFailed ClickNext
           "Error rendering this page."%string);
    [reflexivity | intros f H; discriminate H].
Defined.

(** X8. A different file in the [file] prop starts a load: the preview is
    loading, its error is cleared, the canvas leaves the output, one
    invocation of [loadPdf] for that file is added, and the document, page
    count, page number and page input of the previous file stay until that
    load settles. *)
Theorem new_file_starts_load (s : State) (g : File) :
  File_same (file s) (Some g) = false ->
  let s' := step s (SetFileProp (Some g)) in
  file s' = Some g /\ isLoading s' = true /\ error s' = None /\
  canvas s' = None /\ loads s' = (loads s ++ [mkLoad g false])%list /\
  pdfDoc s' = pdfDoc s /\ totalPages s' = totalPages s /\
  currentPage s' = currentPage s /\ pageInput s' = pageInput s.
Proof.
  intros Hf. unfold step, commit. cbn [handle]. cbv zeta.
  destruct (attachRefs_fields (set_file (Some g) s))
    as (A1 & A2 & A3 & A4 & A5 & A6 & A7 & A8 & A9).
  cbn in A1, A2, A3, A4, A5, A6, A7, A8, A9.
  set (r1 := attachRefs (set_file (Some g) s)) in *.
  assert (S1 : runEffects s r1
               = set_loads (loads r1 ++ [mkLoad g false])
                   (set_error None (set_isLoading true r1))).
  { unfold runEffects, fileEffect.
    rewrite A1, Hf, A3, Z.eqb_refl, A2, Doc_same_refl. reflexivity. }
  rewrite S1.
  set (s1 := set_loads (loads r1 ++ [mkLoad g false])
               (set_error None (set_isLoading true r1))).
  assert (R2 : attachRefs s1 = set_canvas None s1).
  { unfold attachRefs, canvasShown. cbn. now rewrite andb_false_r. }
  rewrite R2.
  set (r2 := set_canvas None s1).
  assert (S2 : runEffects r1 r2 = r2).
  { unfold runEffects. cbn [file pdfDoc currentPage r2 s1 set_canvas set_loads
                             set_error set_isLoading].
    rewrite File_same_refl, Z.eqb_refl, Doc_same_refl. reflexivity. }
  rewrite S2.
  assert (R3 : attachRefs r2 = set_canvas None r2).
  { unfold attachRefs, canvasShown. cbn. now rewrite andb_false_r. }
  rewrite R3. cbn. rewrite A1, A2, A3, A4, A5, A8. repeat split.
Qed.

Lemma new_file_starts_load_witness :
  let s' := step Examples.tenPagesShown (SetFileProp (Some Examples.fileB)) in
  isLoading s' = true /\ totalPages s' = 10 /\
  List.length (loads s') = 2%nat.
Proof.
  destruct (new_file_starts_load Examples.tenPagesShown Examples.fileB eq_refl)
    as (_ & L & _ & _ & Hl & _ & T & _).
  cbv zeta. rewrite L, T, Hl. repeat split.
Defined.

(** *** The page number stays in the document *)

Lemma Range_ext s s' :
  Range s ->
  pdfDoc s' = pdfDoc s -> totalPages s' = totalPages s ->
  currentPage s' = currentPage s ->
  Range s'.
Proof. unfold Range. intros H -> -> ->. exact H. Qed.

Lemma updateRender_requestOk f : forall id ts,
  (forall t, requestOk t -> requestOk (f t)) ->
  Forall requestOk ts -> Forall requestOk (updateRender id f ts).
Proof.
  unfold updateRender.
  induction id as [|k IH]; intros ts Hf Hts.
  - destruct ts as [|t ts]; cbn; [constructor|].
    inversion Hts; subst. constructor; auto.
  - destruct ts as [|t ts]; cbn; [constructor|].
    inversion Hts; subst. constructor; [assumption|].
    apply IH; assumption.
Qed.

Lemma cancelTask_requestOk t : requestOk t -> requestOk (cancelTask t).
Proof. exact (fun H => H). Qed.

Lemma setPhase_requestOk p t : requestOk t -> requestOk (setPhase p t).
Proof. exact (fun H => H). Qed.

Lemma request_in_range (d : PDFDocumentProxy) (n : Z) :
  1 <= n <= numPages d -> exists size, getPage d n = Some size.
Proof.
  intros H. unfold getPage.
  replace ((1 <=? n) && (n <=? numPages d)) with true
    by (symmetry; apply andb_true_iff; split; apply Z.leb_le; lia).
  destruct (nth_error (pageSizes d) (Z.to_nat (n - 1))) as [size|] eqn:E;
    [eauto|].
  apply nth_error_None in E. unfold numPages in H. lia.
Qed.

Lemma attachRefs_Ranged s : Ranged s -> Ranged (attachRefs s).
Proof.
  intros [HR HT].
  destruct (attachRefs_fields s) as (_ & A2 & A3 & A4 & _ & _ & _ & _ & A9).
  split; [exact (Range_ext s _ HR A2 A4 A3) | rewrite A9; exact HT].
Qed.

Lemma fileEffect_Ranged r s : Ranged s -> Ranged (fileEffect r s).
Proof.
  intros [HR HT]. unfold fileEffect.
  destruct (file r); split; cbn; try assumption.
  unfold Range. cbn. split; [reflexivity | left; lia].
Qed.

Lemma syncEffect_Ranged r s : Ranged s -> Ranged (syncEffect r s).
Proof. intros [HR HT]. split; assumption. Qed.

Lemma renderCleanup_Ranged s : Ranged s -> Ranged (renderCleanup s).
Proof.
  intros [HR HT]. unfold renderCleanup.
  destruct (activeRender s); [|split; assumption].
  split; [exact HR|]. cbn.
  apply updateRender_requestOk; [apply cancelTask_requestOk | exact HT].
Qed.

Lemma renderEffect_Ranged r s : Range r -> Ranged s -> Ranged (renderEffect r s).
Proof.
  intros Hr Hs. unfold renderEffect.
  apply renderCleanup_Ranged in Hs. destruct Hs as [HR HT].
  set (s0 := renderCleanup s) in *.
  destruct (pdfDoc r) as [doc|] eqn:Hd; [|split; assumption].
  destruct (canvas s0); [|split; assumption].
  split; [exact HR|]. cbn.
  apply Forall_app. split; [exact HT|].
  constructor; [|constructor].
  unfold requestOk. cbn.
  destruct Hr as [Ht [[H0 _] | Hin]]; rewrite Hd in Ht; cbn in Ht.
  - left. congruence.
  - right. apply request_in_range. lia.
Qed.

Lemma runEffects_Ranged prev r : Ranged r -> Ranged (runEffects prev r).
Proof.
  intros Hr. unfold runEffects. cbv zeta.
  repeat break_match;
    repeat first [ apply renderEffect_Ranged; [exact (proj1 Hr)|]
                 | apply syncEffect_Ranged
                 | apply fileEffect_Ranged ];
    exact Hr.
Qed.

Lemma commit_Ranged prev s : Ranged s -> Ranged (commit prev s).
Proof.
  intros H. unfold commit. cbv zeta.
  repeat first [apply attachRefs_Ranged | apply runEffects_Ranged]. exact H.
Qed.

Lemma handlePageInputSubmit_Ranged s : Ranged s -> Ranged (handlePageInputSubmit s s).
Proof.
  intros [[Ht Hc] HT]. unfold handlePageInputSubmit.
  destruct (Js.parseInt (pageInput s)) as [n|]; [|split; [split|]; assumption].
  split; [|exact HT]. unfold Range. cbn. split; [exact Ht|].
  destruct (n <? 1) eqn:H1; [apply Z.ltb_lt in H1 | apply Z.ltb_ge in H1];
    break_match;
    match goal with
    | H : (_ <? _) = true |- _ => apply Z.ltb_lt in H
    | H : (_ <? _) = false |- _ => apply Z.ltb_ge in H
    end; lia.
Qed.

Lemma handle_Ranged e s : Ranged s -> Ranged (handle e s).
Proof.
  intros H. pose proof H as [[Ht Hc] HT].
  destruct e as [f|id outcome|id w|id ok| | |val| |key]; cbn [handle].
  - exact H.
  - unfold loadPdf_resume.
    destruct (nth_error (loads s) id) as [lt|]; [|exact H].
    destruct (load_settled lt); [exact H|].
    destruct outcome as [sizes|]; [|split; [split|]; assumption].
    split; [|exact HT]. unfold Range. cbn. split; [reflexivity|].
    unfold numPages. cbn. lia.
  - unfold renderPage_afterGetPage, renderPage_catch.
    repeat break_match; try exact H;
      (split; [split; assumption|]; cbn;
       try apply updateRender_requestOk; try apply setPhase_requestOk; exact HT).
  - unfold renderPage_afterRender, renderPage_catch, paint.
    repeat break_match; try exact H;
      (split; [split; assumption|]; cbn;
       try apply updateRender_requestOk; try apply setPhase_requestOk; exact HT).
  - unfold handlePrevPage.
    destruct (1 <? currentPage s) eqn:E; [apply Z.ltb_lt in E | exact H].
    split; [|exact HT]. unfold Range. cbn. split; [exact Ht | lia].
  - unfold handleNextPage.
    destruct (currentPage s <? totalPages s) eqn:E; [apply Z.ltb_lt in E | exact H].
    split; [|exact HT]. unfold Range. cbn. split; [exact Ht | lia].
  - unfold handlePageInputChange. break_match; [split; [split|]; assumption | exact H].
  - apply handlePageInputSubmit_Ranged, H.
  - unfold handleKeyDown. break_match; [|exact H].
    rewrite handlePageInputSubmit_twice. apply handlePageInputSubmit_Ranged, H.
Qed.

Lemma mount_Ranged f : Ranged (mount f).
Proof.
  unfold mount. cbv zeta.
  assert (H0 : Ranged (initialState f)).
  { split; [|constructor]. unfold Range. cbn. split; [reflexivity | left; lia]. }
  apply attachRefs_Ranged in H0.
  set (r1 := attachRefs (initialState f)) in *. clearbody r1.
  repeat first [ apply attachRefs_Ranged | apply runEffects_Ranged
               | apply renderEffect_Ranged; [exact (proj1 H0)|]
               | apply syncEffect_Ranged | apply fileEffect_Ranged ].
  exact H0.
Qed.

Lemma reachable_Ranged s : reachable s -> Ranged s.
Proof.
  induction 1 as [f | s e _ IH];
    [apply mount_Ranged | apply commit_Ranged, handle_Ranged, IH].
Qed.

(** X9. In every state a mounted preview can reach, [totalPages] is the
    page count of the document it holds (0 when it holds none), and when
    there is at least one page the page number is between 1 and
    [totalPages]. *)
Theorem page_number_within_document (s : State) :
  reachable s ->
  totalPages s = docPages (pdfDoc s) /\
  (1 <= totalPages s -> 1 <= currentPage s <= totalPages s).
Proof.
  intros Hs. destruct (reachable_Ranged s Hs) as [[Ht Hc] _].
  split; [exact Ht|]. intros H1. destruct Hc as [[H0 _]|Hin]; [lia | exact Hin].
Qed.

(** X10. Every invocation of [renderPage] a mounted preview ever makes asks
    the library for a page that exists in the document it holds, unless
    that document has no page at all. *)
Theorem render_requests_exist (s : State) (t : RenderTask) :
  reachable s ->
  In t (renders s) ->
  1 <= numPages (render_doc t) ->
  exists size, getPage (render_doc t) (render_page t) = Some size.
Proof.
  intros Hs Hin Hn. destruct (reachable_Ranged s Hs) as [_ HT].
  rewrite Forall_forall in HT. destruct (HT t Hin) as [H0 | H]; [lia | exact H].
Qed.

Lemma reachable_run es : forall s, reachable s -> reachable (run s es).
Proof.
  unfold run. induction es as [|e es IH]; intros s Hs; [exact Hs|].
  cbn [fold_left]. apply IH, reachable_step, Hs.
Qed.

Lemma tenPagesShown_reachable : reachable Examples.tenPagesShown.
Proof. apply reachable_run, reachable_mount. Qed.

(** X9 on the ten-page preview after Next and a committed "15": page 10 of
    10. *)
Lemma page_number_within_document_witness :
  totalPages MoreExamples.navigated = 10 /\
  1 <= currentPage MoreExamples.navigated <= totalPages MoreExamples.navigated.
Proof.
  split; [reflexivity|].
  apply (page_number_within_document MoreExamples.navigated).
  - apply reachable_run, tenPagesShown_reachable.
  - vm_compute. discriminate.
Defined.

(** X10 on the request Next makes on the ten-page preview: page 2
    exists. *)
Lemma render_requests_exist_witness :
  exists size,
    getPage (render_doc MoreExamples.requestPage2)
      (render_page MoreExamples.requestPage2) = Some size.
Proof.
  apply (render_requests_exist (step Examples.tenPagesShown ClickNext)).
  - apply reachable_step, tenPagesShown_reachable.
  - vm_compute. right. left. reflexivity.
  - vm_compute. discriminate.
Defined.

(** *** The size a page is rendered at *)

Lemma Math_min_le_l (a b : Q) : (Js.Math_min a b <= a)%Q.
Proof.
  unfold Js.Math_min. destruct (Qle_bool a b) eqn:E; [apply Qle_refl|].
  apply JsProps.Qle_bool_false in E. exact E.
Qed.

Lemma Math_min_le_r (a b : Q) : (Js.Math_min a b <= b)%Q.
Proof.
  unfold Js.Math_min. destruct (Qle_bool a b) eqn:E; [|apply Qle_refl].
  apply Qle_bool_iff, E.
Qed.

Lemma nth_updateRender f : forall id ts t,
  nth_error ts id = Some t ->
  nth_error (updateRender id f ts) id = Some (f t).
Proof.
  unfold updateRender.
  induction id as [|k IH]; intros ts t Ht; destruct ts as [|a ts];
    try discriminate.
  - injection Ht as ->. reflexivity.
  - cbn in Ht |- *. apply IH, Ht.
Qed.

(** X11. When the page of a render that was not cancelled arrives and the
    canvas is in the output, the canvas is blanked and given the page's
    size times the render scale, which keeps it within the container's
    width less 32 and within 1.5 times the page's own width, and the
    invocation goes on to rasterize onto that canvas. *)
Theorem render_fits_container (s : State) (id : nat) (t : RenderTask)
    (clientWidth : option Q) (c : Canvas) (pageWidth pageHeight : Q) :
  nth_error (renders s) id = Some t ->
  phase t = AwaitGetPage ->
  isCancelled t = false ->
  getPage (render_doc t) (render_page t) = Some (pageWidth, pageHeight) ->
  (0 < pageWidth)%Q ->
  canvas s = Some c ->
  let s' := renderPage_afterGetPage id clientWidth s in
  exists c',
    canvas s' = Some c' /\
    canvas_id c' = canvas_id c /\
    painted c' = None /\
    canvas_width c' = (pageWidth * renderScale clientWidth pageWidth)%Q /\
    canvas_height c' = (pageHeight * renderScale clientWidth pageWidth)%Q /\
    (canvas_width c' <= containerWidthOf clientWidth - 32)%Q /\
    (canvas_width c' <= (3 # 2) * pageWidth)%Q /\
    nth_error (renders s') id = Some (setPhase (AwaitRender (canvas_id c)) t).
Proof.
  intros Ht Hp Hc Hg Hw Hcv s'. subst s'.
  unfold renderPage_afterGetPage. rewrite Ht, Hp, Hg, Hc, Hcv.
  eexists. split; [reflexivity|]. cbn.
  split; [reflexivity|]. split; [reflexivity|].
  split; [reflexivity|]. split; [reflexivity|].
  fold (renderScale clientWidth pageWidth).
  split; [|split].
  - apply Qle_trans
      with (pageWidth * ((containerWidthOf clientWidth - 32) / pageWidth))%Q.
    + apply Qmult_le_l; [exact Hw | apply Math_min_le_l].
    + rewrite Qmult_div_r; [apply Qle_refl|].
      intros E. rewrite E in Hw. exact (Qlt_irrefl 0 Hw).
  - rewrite (Qmult_comm (3 # 2)).
    apply Qmult_le_l; [exact Hw | apply Math_min_le_r].
  - apply nth_updateRender, Ht.
Qed.

(** X11 on the ten-page preview in a container 800 wide: the canvas
    becomes 768 wide. *)
Lemma render_fits_container_witness :
  exists c',
    canvas (renderPage_afterGetPage 0 (Some 800%Q) Examples.tenPagesShown) = Some c' /\
    (canvas_width c' == 768)%Q /\ painted c' = None.
Proof.
  destruct (render_fits_container Examples.tenPagesShown 0
              (mkRender (mkDoc 0 (Examples.sizes 10)) 1 false AwaitGetPage)
              (Some 800%Q) (mkCanvas 1 300 150 None) 595 842)
    as (c' & H1 & _ & H3 & H4 & _);
    try reflexivity.
  exists c'. split; [exact H1|]. split; [rewrite H4; reflexivity | exact H3].
Defined.

End PdfPreviewMore.

(** ** [parseInt] and [toString] *)

Module JsMoreProps.

Import Js.

Lemma isDigit_digitValue c : isDigit c = true -> 0 <= digitValue c <= 9.
Proof.
  unfold isDigit, digitValue. intros H.
  apply andb_true_iff in H as [H1 H2].
  apply Nat.leb_le in H1. apply Nat.leb_le in H2. lia.
Qed.

Lemma readDigits_nonneg : forall s a,
  0 <= a -> exists n, readDigits s (Some a) = Some n /\ 0 <= n.
Proof.
  induction s as [|c s IH]; intros a Ha; cbn [readDigits]; [eauto|].
  destruct (isDigit c) eqn:E; [|eauto].
  apply IH. pose proof (isDigit_digitValue c E). lia.
Qed.

Lemma parseInt_digit_first c s :
  isDigit c = true -> parseInt (String c s) = readDigits (String c s) None.
Proof.
  destruct c as [[] [] [] [] [] [] [] []]; intros H; try discriminate H;
    reflexivity.
Qed.

(** A buffer the input guard lets through as digits parses, to a number
    that is not negative. *)
Lemma parseInt_digits s :
  test_digits s = true -> exists n, parseInt s = Some n /\ 0 <= n.
Proof.
  destruct s as [|c s]; [discriminate|]. cbn [test_digits allDigits].
  intros H. apply andb_true_iff in H as [Hc _].
  rewrite (parseInt_digit_first c s Hc). cbn [readDigits]. rewrite Hc.
  apply readDigits_nonneg. pose proof (isDigit_digitValue c Hc). lia.
Qed.

Lemma readDigits_uint_acc : forall d acc,
  readDigits (NilEmpty.string_of_uint d) (Some (Zpos acc))
  = Some (Zpos (Pos.of_uint_acc d acc)).
Proof.
  induction d; intros acc; cbn [NilEmpty.string_of_uint readDigits Pos.of_uint_acc];
    [reflexivity | ..];
    match goal with
    | |- context [isDigit ?c] => change (isDigit c) with true; cbv iota
    end;
    match goal with
    | |- readDigits _ (Some ?v) = Some (Zpos (Pos.of_uint_acc _ ?p)) =>
        replace v with (Zpos p)
          by (match goal with
              | |- context [digitValue ?c] =>
                  let k := eval vm_compute in (digitValue c) in
                  change (digitValue c) with k
              end; lia)
    end;
    apply IHd.
Qed.

Lemma readDigits_uint : forall d,
  readDigits (NilEmpty.string_of_uint d) (Some 0) = Some (Z.of_N (Pos.of_uint d)).
Proof.
  induction d; cbn [NilEmpty.string_of_uint readDigits Pos.of_uint];
    [reflexivity | exact IHd | ..];
    match goal with
    | |- context [isDigit ?c] => change (isDigit c) with true; cbv iota
    end;
    match goal with
    | |- readDigits _ (Some ?v) = Some (Z.of_N (N.pos (Pos.of_uint_acc _ ?p))) =>
        replace v with (Zpos p)
          by (match goal with
              | |- context [digitValue ?c] =>
                  let k := eval vm_compute in (digitValue c) in
                  change (digitValue c) with k
              end; lia)
    end;
    apply readDigits_uint_acc.
Qed.

(** Parsing the decimal string of a number that is not negative gives the
    number back. *)
Lemma parseInt_toString (n : Z) : 0 <= n -> parseInt (toString n) = Some n.
Proof.
  intros H. destruct n as [|p|p]; [reflexivity| |lia].
  unfold toString. cbn [Z.to_int NilZero.string_of_int].
  pose proof (DecimalPos.Unsigned.to_uint_nonnil p) as Hnil.
  pose proof (DecimalPos.Unsigned.of_to p) as Hof.
  pose proof (readDigits_uint (Pos.to_uint p)) as Hr.
  rewrite Hof in Hr. cbn [Z.of_N] in Hr.
  destruct (Pos.to_uint p) as [|d|d|d|d|d|d|d|d|d|d]; [contradiction | ..];
    exact Hr.
Qed.

End JsMoreProps.

(** ** The page input: what a commit can meet *)

Module PageInputProps.

Import PdfPreview.
Import PdfPreviewProps.

(** After [handlePageInputSubmit] the buffer it leaves is the decimal
    string of the page number it leaves. *)
Lemma submit_synced s :
  pageInput (handlePageInputSubmit s s)
  = Js.toString (currentPage (handlePageInputSubmit s s)).
Proof. unfold handlePageInputSubmit. break_match; reflexivity. Qed.

Lemma blur_fields s :
  currentPage (step s PageInputBlur) = currentPage (handlePageInputSubmit s s) /\
  totalPages (step s PageInputBlur) = totalPages s /\
  pageInput (step s PageInputBlur)
  = Js.toString (currentPage (handlePageInputSubmit s s)).
Proof.
  unfold step. cbn [handle].
  destruct (commit_same_file s (handlePageInputSubmit s s))
    as (_ & _ & C & T & _ & _ & P).
  { rewrite handlePageInputSubmit_file. apply File_same_refl. }
  split; [exact C|]. split.
  - rewrite T. unfold handlePageInputSubmit. break_match; reflexivity.
  - rewrite P. break_match; [apply submit_synced | reflexivity].
Qed.

(** Committing a buffer that is the decimal string of a page number within
    the document leaves that page number. *)
Lemma submit_of_synced s :
  pageInput s = Js.toString (currentPage s) ->
  1 <= currentPage s <= totalPages s ->
  currentPage (handlePageInputSubmit s s) = currentPage s.
Proof.
  intros Hp Hc. unfold handlePageInputSubmit.
  rewrite Hp, JsMoreProps.parseInt_toString by lia.
  replace (currentPage s <? 1) with false by (symmetry; apply Z.ltb_ge; lia).
  replace (totalPages s <? currentPage s) with false
    by (symmetry; apply Z.ltb_ge; lia).
  reflexivity.
Qed.

(** X12. The page input of a mounted preview fails to parse exactly when it
    is empty: the branch of the commit that reverts the buffer is taken for
    the empty buffer and for no other. *)
Theorem commit_reverts_only_empty_buffer (s : State) :
  reachable s ->
  (Js.parseInt (pageInput s) = None <-> pageInput s = EmptyString).
Proof.
  intros Hs. destruct (reachable_Inv s Hs) as ([He | Hd] & _).
  - rewrite He. split; reflexivity.
  - destruct (JsMoreProps.parseInt_digits _ Hd) as (n & Hn & _).
    split; intros H.
    + congruence.
    + rewrite H in Hd. discriminate Hd.
Qed.

Lemma commit_reverts_only_empty_buffer_witness :
  Js.parseInt (pageInput Examples.typed15) <> None /\
  Js.parseInt (pageInput (step Examples.typed15 (PageInputChange EmptyString))) = None.
Proof.
  split.
  - intros H.
    apply (commit_reverts_only_empty_buffer Examples.typed15) in H;
      [vm_compute in H; discriminate H|].
    apply reachable_step, PdfPreviewMore.tenPagesShown_reachable.
  - apply (commit_reverts_only_empty_buffer
             (step Examples.typed15 (PageInputChange EmptyString))).
    + apply reachable_step, reachable_step, PdfPreviewMore.tenPagesShown_reachable.
    + reflexivity.
Defined.

(** X13. Leaving the page input without editing it changes nothing: when
    the buffer is the decimal string of a page number within the document,
    a commit keeps the page number and the buffer.  And a commit is
    idempotent: on a mounted preview with at least one page, a second commit
    right after a first changes neither. *)
Theorem commit_without_edit_is_noop :
  (forall s,
     pageInput s = Js.toString (currentPage s) ->
     1 <= currentPage s <= totalPages s ->
     currentPage (step s PageInputBlur) = currentPage s /\
     pageInput (step s PageInputBlur) = pageInput s) /\
  (forall s,
     reachable s -> 1 <= totalPages s ->
     let s1 := step s PageInputBlur in
     currentPage (step s1 PageInputBlur) = currentPage s1 /\
     pageInput (step s1 PageInputBlur) = pageInput s1).
Proof.
  assert (A : forall s,
     pageInput s = Js.toString (currentPage s) ->
     1 <= currentPage s <= totalPages s ->
     currentPage (step s PageInputBlur) = currentPage s /\
     pageInput (step s PageInputBlur) = pageInput s).
  { intros s Hp Hc. destruct (blur_fields s) as (C & _ & P).
    rewrite C, P, (submit_of_synced s Hp Hc). split; [reflexivity | now rewrite Hp]. }
  split; [exact A|].
  intros s Hs Ht s1. apply A.
  - destruct (blur_fields s) as (C & _ & P). unfold s1. now rewrite C, P.
  - assert (R1 : reachable s1) by (apply reachable_step, Hs).
    destruct (PdfPreviewMore.reachable_Ranged s1 R1) as [[_ Hc] _].
    destruct (blur_fields s) as (_ & T & _). fold s1 in T.
    destruct Hc as [[H0 _] | Hin]; [lia | exact Hin].
Qed.

Lemma commit_without_edit_is_noop_witness :
  currentPage (step MoreExamples.navigated PageInputBlur) = 10 /\
  pageInput (step MoreExamples.navigated PageInputBlur) = "10"%string.
Proof.
  destruct commit_without_edit_is_noop as [A _].
  destruct (A MoreExamples.navigated) as [C P];
    [vm_compute; reflexivity | vm_compute; split; discriminate |].
  rewrite C, P. vm_compute. split; reflexivity.
Defined.

(** X14. Enter in the page input, which submits and then blurs the input
    (submitting once more), leaves exactly the state a single blur leaves;
    any other key updates nothing. *)
Theorem enter_is_blur (s : State) :
  step s (PageInputKeyDown "Enter") = step s PageInputBlur /\
  (forall key, String.eqb key "Enter" = false ->
     handle (PageInputKeyDown key) s = s).
Proof.
  split.
  - unfold step. cbn [handle]. unfold handleKeyDown.
    change (String.eqb "Enter" "Enter") with true. cbv iota.
    now rewrite handlePageInputSubmit_twice.
  - intros key Hk. cbn [handle]. unfold handleKeyDown. now rewrite Hk.
Qed.

End PageInputProps.

(** ** The preview component: which render is in flight *)

Module RenderFlow.

Import PdfPreview.
Import PdfPreviewProps.

Lemma attachRefs_shown s c :
  canvasShown s = true -> canvas s = Some c -> attachRefs s = s.
Proof.
  intros Hs Hc. unfold attachRefs. rewrite Hs, Hc. reflexivity.
Qed.

Lemma attachRefs_mounts s :
  canvasShown s = true ->
  (exists c, canvas (attachRefs s) = Some c) /\
  canvasShown (attachRefs s) = true /\
  activeRender (attachRefs s) = activeRender s.
Proof.
  intros Hs. unfold attachRefs. rewrite Hs.
  destruct (canvas s) as [c|] eqn:Hc.
  - rewrite Hc. eauto.
  - cbn. split; [eauto|]. split; [exact Hs | reflexivity].
Qed.

Lemma updateRender_length f : forall id ts,
  List.length (updateRender id f ts) = List.length ts.
Proof.
  unfold updateRender.
  induction id as [|k IH]; intros [|t ts]; cbn; try reflexivity.
  now rewrite IH.
Qed.

Lemma renderCleanup_length s :
  List.length (renders (renderCleanup s)) = List.length (renders s).
Proof.
  unfold renderCleanup. destruct (activeRender s); [|reflexivity].
  cbn. apply updateRender_length.
Qed.

(** A batch that changes the document or the page number while the canvas is
    in the output: the render effect cancels the invocation it had made and
    makes one for the page number of the batch.  [r] is the state that is
    rendered: [s] with the canvas attached. *)
Lemma commit_starts_render prev s d :
  File_same (file prev) (file s) = true ->
  canvasShown s = true ->
  pdfDoc s = Some d ->
  Doc_same (pdfDoc prev) (pdfDoc s) && (currentPage prev =? currentPage s) = false ->
  let s' := commit prev s in
  renders s' =
    (renders (renderCleanup s) ++ [mkRender d (currentPage s) false AwaitGetPage])%list /\
  activeRender s' = Some (List.length (renders s)) /\
  error s' = None /\
  (exists c, canvas s' = Some c).
Proof.
  intros Hf Hshown Hd Hdeps. unfold commit. cbv zeta.
  destruct (attachRefs_mounts s Hshown) as ((c1 & Hc1) & Hshown1 & Ha1).
  destruct (attachRefs_fields s) as (A1 & A2 & A3 & A4 & A5 & A6 & A7 & A8 & A9).
  set (r1 := attachRefs s) in *. clearbody r1.
  assert (S1 : exists v,
            runEffects prev r1
            = set_activeRender (Some (List.length (renders s)))
                (set_renders
                   (renders (renderCleanup s) ++
                      [mkRender d (currentPage s) false AwaitGetPage])
                   (set_error None (renderCleanup (set_pageInput v r1))))).
  { unfold runEffects. rewrite A1, Hf, A2, A3, Hdeps. cbv zeta.
    assert (G : forall v,
              renderEffect r1 (set_pageInput v r1)
              = set_activeRender (Some (List.length (renders s)))
                  (set_renders
                     (renders (renderCleanup s) ++
                        [mkRender d (currentPage s) false AwaitGetPage])
                     (set_error None (renderCleanup (set_pageInput v r1))))).
    { intros v. unfold renderEffect.
      assert (Hcv : canvas (renderCleanup (set_pageInput v r1)) = Some c1).
      { unfold renderCleanup. destruct (activeRender (set_pageInput v r1)); exact Hc1. }
      assert (Hrs : renders (renderCleanup (set_pageInput v r1))
                    = renders (renderCleanup s)).
      { unfold renderCleanup. cbn [activeRender set_pageInput].
        rewrite Ha1. destruct (activeRender s); cbn; rewrite A9; reflexivity. }
      rewrite A2, Hd, Hcv. cbn [renders set_error].
      rewrite Hrs, renderCleanup_length, A3. reflexivity. }
    destruct (currentPage prev =? currentPage s).
    - exists (pageInput r1).
      replace r1 with (set_pageInput (pageInput r1) r1) at 2
        by (destruct r1; reflexivity).
      apply G.
    - exists (Js.toString (currentPage r1)). apply G. }
  destruct S1 as (v & S1). rewrite S1.
  set (s1 := set_activeRender _ _).
  assert (Hc2 : canvas s1 = Some c1).
  { unfold s1. cbn. unfold renderCleanup.
    destruct (activeRender (set_pageInput v r1)); exact Hc1. }
  assert (Hshown2 : canvasShown s1 = true).
  { unfold canvasShown, s1. cbn. unfold renderCleanup.
    destruct (activeRender (set_pageInput v r1)); cbn; rewrite A1, A7;
      unfold canvasShown in Hshown;
      apply andb_true_iff in Hshown as [Hshown _]; rewrite Hshown; reflexivity. }
  rewrite (attachRefs_shown s1 c1 Hshown2 Hc2).
  assert (S2 : runEffects r1 s1 = s1).
  { unfold runEffects.
    assert (F : file s1 = file r1)
      by (unfold s1, renderCleanup; destruct (activeRender (set_pageInput v r1)); reflexivity).
    assert (D : pdfDoc s1 = pdfDoc r1)
      by (unfold s1, renderCleanup; destruct (activeRender (set_pageInput v r1)); reflexivity).
    assert (C : currentPage s1 = currentPage r1)
      by (unfold s1, renderCleanup; destruct (activeRender (set_pageInput v r1)); reflexivity).
    rewrite F, D, C, File_same_refl, Doc_same_refl, Z.eqb_refl. reflexivity. }
  rewrite S2, (attachRefs_shown s1 c1 Hshown2 Hc2).
  unfold s1. cbn. repeat split. eauto.
Qed.

Lemma navigation_fields e s :
  navigation e ->
  file (handle e s) = file s /\ isLoading (handle e s) = isLoading s /\
  error (handle e s) = error s /\ pdfDoc (handle e s) = pdfDoc s /\
  renders (handle e s) = renders s /\ activeRender (handle e s) = activeRender s.
Proof.
  intros [-> | [-> | [-> | [key ->]]]]; cbn [handle];
    unfold handlePrevPage, handleNextPage, handleKeyDown, handlePageInputSubmit;
    repeat break_match; cbn; repeat split; reflexivity.
Qed.

(** X15. While a document is shown (a file is given, nothing is loading, no
    error), every navigation that changes the page number supersedes the
    render in flight: the invocation the render effect had made gets its
    [isCancelled] set, and exactly one new invocation is made, for the new
    page number of the same document. *)
Theorem page_change_supersedes_render (s : State) (e : Event) (d : PDFDocumentProxy) :
  navigation e ->
  canvasShown s = true ->
  pdfDoc s = Some d ->
  currentPage (step s e) <> currentPage s ->
  let s' := step s e in
  renders s' =
    (renders (renderCleanup s) ++ [mkRender d (currentPage s') false AwaitGetPage])%list /\
  activeRender s' = Some (List.length (renders s)) /\
  (forall a t, activeRender s = Some a -> nth_error (renders s) a = Some t ->
     nth_error (renders s') a = Some (cancelTask t)).
Proof.
  intros Hnav Hshown Hd Hne s'.
  destruct (navigation_fields e s Hnav) as (F & L & E & D & R & A).
  assert (Hf : File_same (file s) (file (handle e s)) = true)
    by (rewrite F; apply File_same_refl).
  destruct (commit_same_file s (handle e s) Hf) as (_ & _ & C & _).
  fold (step s e) in C. fold s' in C.
  assert (Hshown' : canvasShown (handle e s) = true)
    by (unfold canvasShown in *; rewrite F, L, E; exact Hshown).
  assert (Hdeps : Doc_same (pdfDoc s) (pdfDoc (handle e s))
                  && (currentPage s =? currentPage (handle e s)) = false).
  { apply andb_false_iff. right. apply Z.eqb_neq. unfold s' in *. congruence. }
  destruct (commit_starts_render s (handle e s) d Hf Hshown'
              ltac:(rewrite D; exact Hd) Hdeps) as (Hr & Ha & _).
  fold (step s e) in Hr, Ha. fold s' in Hr, Ha.
  assert (Hcl : renders (renderCleanup (handle e s)) = renders (renderCleanup s)).
  { unfold renderCleanup. rewrite A. destruct (activeRender s); cbn; rewrite R; reflexivity. }
  rewrite Hcl, R in *. rewrite <- C in Hr.
  split; [exact Hr|]. split; [exact Ha|].
  intros a t Hact Ht. rewrite Hr.
  assert (Hn : nth_error (renders (renderCleanup s)) a = Some (cancelTask t)).
  { unfold renderCleanup. rewrite Hact. cbn.
    apply PdfPreviewMore.nth_updateRender, Ht. }
  rewrite nth_error_app1; [exact Hn|].
  apply nth_error_Some. congruence.
Qed.

(** X15 on the ten-page preview at page 1: Next cancels the request for
    page 1 and makes one for page 2. *)
Lemma page_change_supersedes_render_witness :
  let s' := step Examples.tenPagesShown ClickNext in
  List.map (fun t => (render_page t, isCancelled t)) (renders s')
  = [(1, true); (2, false)] /\
  activeRender s' = Some 1%nat.
Proof.
  destruct (page_change_supersedes_render Examples.tenPagesShown ClickNext
              (mkDoc 0 (Examples.sizes 10)))
    as (Hr & Ha & _).
  - right. left. reflexivity.
  - reflexivity.
  - reflexivity.
  - vm_compute. discriminate.
  - cbv zeta. rewrite Hr, Ha. split; reflexivity.
Defined.

(** *** A load that succeeds shows page 1 *)

Lemma nth_settleLoad_same : forall id ts t,
  nth_error ts id = Some t ->
  nth_error (settleLoad id ts) id = Some (mkLoad (load_file t) true).
Proof.
  unfold settleLoad.
  induction id as [|k IH]; intros ts t Ht; destruct ts as [|a ts];
    try discriminate.
  - injection Ht as ->. reflexivity.
  - cbn in Ht |- *. apply IH, Ht.
Qed.

Lemma nth_settleLoad_other : forall id ts j,
  j <> id -> nth_error (settleLoad id ts) j = nth_error ts j.
Proof.
  unfold settleLoad.
  induction id as [|k IH]; intros ts j Hne.
  - destruct ts as [|t ts]; [reflexivity|].
    destruct j as [|j]; [contradiction | reflexivity].
  - destruct ts as [|t ts]; [reflexivity|].
    destruct j as [|j]; [reflexivity|].
    cbn [firstn skipn app nth_error]. apply IH. congruence.
Qed.

Lemma DocSettled_ext s s' :
  DocSettled s ->
  pdfDoc s' = pdfDoc s \/ pdfDoc s' = None ->
  (exists more, loads s' = (loads s ++ more)%list) ->
  DocSettled s'.
Proof.
  intros H Hd (more & Hl) d Hd'.
  destruct Hd as [Hd | Hd]; [|congruence].
  rewrite Hd in Hd'. destruct (H d Hd') as (t & Ht & Hs).
  exists t. split; [|exact Hs].
  rewrite Hl, nth_error_app1; [exact Ht|].
  apply nth_error_Some. congruence.
Qed.

Lemma renderEffect_loads r s : loads (renderEffect r s) = loads s.
Proof. apply renderEffect_fields. Qed.

Lemma runEffects_doc_loads prev r :
  (pdfDoc (runEffects prev r) = pdfDoc r \/ pdfDoc (runEffects prev r) = None) /\
  exists more, loads (runEffects prev r) = (loads r ++ more)%list.
Proof.
  unfold runEffects, fileEffect, syncEffect. cbv zeta.
  repeat break_match;
    rewrite ?renderEffect_pdfDoc, ?renderEffect_loads; cbn;
    (split; [auto | first [ exists []; now rewrite app_nil_r | eauto ]]).
Qed.

Lemma attachRefs_DocSettled s : DocSettled s -> DocSettled (attachRefs s).
Proof.
  intros H. destruct (attachRefs_fields s) as (_ & D & _ & _ & _ & _ & _ & L & _).
  apply (DocSettled_ext s); [exact H | left; exact D|].
  exists []. now rewrite app_nil_r.
Qed.

Lemma runEffects_DocSettled prev r : DocSettled r -> DocSettled (runEffects prev r).
Proof.
  intros H. destruct (runEffects_doc_loads prev r) as [D L].
  exact (DocSettled_ext r _ H D L).
Qed.

Lemma commit_DocSettled prev s : DocSettled s -> DocSettled (commit prev s).
Proof.
  intros H. unfold commit. cbv zeta.
  repeat first [apply attachRefs_DocSettled | apply runEffects_DocSettled].
  exact H.
Qed.

Lemma loadPdf_resume_DocSettled id outcome s :
  DocSettled s -> DocSettled (loadPdf_resume id outcome s).
Proof.
  intros H. unfold loadPdf_resume.
  destruct (nth_error (loads s) id) as [lt|] eqn:Hlt; [|exact H].
  destruct (load_settled lt) eqn:Hs; [exact H|].
  assert (Hold : forall d, pdfDoc s = Some d ->
            exists t, nth_error (settleLoad id (loads s)) (doc_id d) = Some t /\
                      load_settled t = true).
  { intros d Hd. destruct (H d Hd) as (t & Ht & Hts).
    destruct (Nat.eq_dec (doc_id d) id) as [E | E].
    - rewrite E. rewrite (nth_settleLoad_same id _ lt Hlt). eauto.
    - rewrite (nth_settleLoad_other id _ _ E). eauto. }
  destruct outcome as [sizes|]; intros d Hd; cbn in Hd |- *.
  - injection Hd as <-. cbn.
    rewrite (nth_settleLoad_same id _ lt Hlt). eauto.
  - apply Hold, Hd.
Qed.

Lemma handle_DocSettled e s : DocSettled s -> DocSettled (handle e s).
Proof.
  intros H.
  destruct e as [f|id outcome|id w|id ok| | |val| |key]; cbn [handle].
  - exact H.
  - apply loadPdf_resume_DocSettled, H.
  - apply (DocSettled_ext s); [exact H | |];
      unfold renderPage_afterGetPage, renderPage_catch;
      repeat break_match; cbn; auto; exists []; now rewrite app_nil_r.
  - apply (DocSettled_ext s); [exact H | |];
      unfold renderPage_afterRender, renderPage_catch, paint;
      repeat break_match; cbn; auto; exists []; now rewrite app_nil_r.
  - apply (DocSettled_ext s); [exact H | |];
      unfold handlePrevPage; break_match; cbn; auto; exists []; now rewrite app_nil_r.
  - apply (DocSettled_ext s); [exact H | |];
      unfold handleNextPage; break_match; cbn; auto; exists []; now rewrite app_nil_r.
  - apply (DocSettled_ext s); [exact H | |];
      unfold handlePageInputChange; break_match; cbn; auto;
      exists []; now rewrite app_nil_r.
  - apply (DocSettled_ext s); [exact H | |];
      unfold handlePageInputSubmit; break_match; cbn; auto;
      exists []; now rewrite app_nil_r.
  - apply (DocSettled_ext s); [exact H | |];
      unfold handleKeyDown, handlePageInputSubmit; repeat break_match; cbn; auto;
      exists []; now rewrite app_nil_r.
Qed.

Lemma mount_DocSettled f : DocSettled (mount f).
Proof.
  unfold mount. cbv zeta.
  set (r1 := attachRefs (initialState f)).
  assert (H1 : DocSettled r1).
  { apply attachRefs_DocSettled. intros d Hd. discriminate Hd. }
  clearbody r1.
  apply attachRefs_DocSettled, runEffects_DocSettled, attachRefs_DocSettled.
  apply (DocSettled_ext r1); [exact H1 | |].
  - rewrite renderEffect_pdfDoc. unfold syncEffect, fileEffect.
    destruct (file r1); cbn; auto.
  - rewrite renderEffect_loads. unfold syncEffect, fileEffect.
    destruct (file r1); cbn; [eauto | exists []; now rewrite app_nil_r].
Qed.

Lemma reachable_DocSettled s : reachable s -> DocSettled s.
Proof.
  induction 1 as [f | s e _ IH];
    [apply mount_DocSettled | apply commit_DocSettled, handle_DocSettled, IH].
Qed.

(** X16. On a mounted preview with a file and no error, a load that
    settles with a document makes it the document held, with its page count
    and page 1, ends the loading, puts the canvas in the output, cancels the
    render the effect had made and starts exactly one render, for page 1 of
    the new document. *)
Theorem loaded_document_shows_page_1 (s : State) (id : nat) (lt : LoadTask)
    (sizes : list (Q * Q)) :
  reachable s ->
  nth_error (loads s) id = Some lt ->
  load_settled lt = false ->
  file s <> None ->
  error s = None ->
  let s' := step s (LoadSettled id (Some sizes)) in
  pdfDoc s' = Some (mkDoc id sizes) /\
  totalPages s' = Z.of_nat (List.length sizes) /\
  currentPage s' = 1 /\
  isLoading s' = false /\
  error s' = None /\
  (exists c, canvas s' = Some c) /\
  renders s' =
    (renders (renderCleanup s) ++ [mkRender (mkDoc id sizes) 1 false AwaitGetPage])%list /\
  activeRender s' = Some (List.length (renders s)).
Proof.
  intros Hs Hlt Hset Hfile Herr s'.
  set (h := handle (LoadSettled id (Some sizes)) s).
  assert (Hh : h = set_isLoading false (set_currentPage 1
                 (set_totalPages (numPages (mkDoc id sizes))
                    (set_pdfDoc (Some (mkDoc id sizes))
                       (set_loads (settleLoad id (loads s)) s))))).
  { unfold h. cbn [handle]. unfold loadPdf_resume. rewrite Hlt, Hset. reflexivity. }
  assert (Hf : File_same (file s) (file h) = true)
    by (rewrite Hh; apply File_same_refl).
  assert (Hshown : canvasShown h = true).
  { rewrite Hh. unfold canvasShown. cbn. rewrite Herr.
    destruct (file s); [reflexivity | contradiction]. }
  assert (Hdeps : Doc_same (pdfDoc s) (pdfDoc h) && (currentPage s =? currentPage h)
                  = false).
  { apply andb_false_iff. left. rewrite Hh. cbn [pdfDoc set_isLoading set_currentPage
      set_totalPages set_pdfDoc].
    destruct (pdfDoc s) as [d|] eqn:Hd; [|reflexivity].
    cbn. apply Nat.eqb_neq. intros E.
    destruct (reachable_DocSettled s Hs d Hd) as (t & Ht & Hts).
    rewrite E, Hlt in Ht. injection Ht as <-. congruence. }
  destruct (commit_starts_render s h (mkDoc id sizes) Hf Hshown
              ltac:(rewrite Hh; reflexivity) Hdeps) as (Hr & Ha & He & Hc).
  destruct (commit_same_file s h Hf) as (_ & D & C & T & L & _).
  unfold s'. change (step s (LoadSettled id (Some sizes))) with (commit s h).
  assert (Hcl : renders (renderCleanup h) = renders (renderCleanup s))
    by (rewrite Hh; unfold renderCleanup; cbn; destruct (activeRender s); reflexivity).
  rewrite Hcl in Hr.
  assert (Hcp : currentPage h = 1) by (rewrite Hh; reflexivity).
  assert (Hrs : renders h = renders s) by (rewrite Hh; reflexivity).
  rewrite Hcp in Hr, C. rewrite Hrs in Ha.
  split; [rewrite D, Hh; reflexivity|].
  split; [rewrite T, Hh; reflexivity|].
  split; [exact C|].
  split; [rewrite L, Hh; reflexivity|].
  split; [exact He|].
  split; [exact Hc|].
  split; [exact Hr | exact Ha].
Qed.

(** X16 on a preview just mounted with a.pdf, whose load gives ten pages. *)
Lemma loaded_document_shows_page_1_witness :
  let s' := step (mount (Some Examples.fileA)) (LoadSettled 0 (Some (Examples.sizes 10))) in
  totalPages s' = 10 /\ currentPage s' = 1 /\ isLoading s' = false /\
  List.map render_page (renders s') = [1].
Proof.
  destruct (loaded_document_shows_page_1 (mount (Some Examples.fileA)) 0
              (mkLoad Examples.fileA false) (Examples.sizes 10))
    as (_ & T & C & L & _ & _ & R & _).
  - apply reachable_mount.
  - reflexivity.
  - reflexivity.
  - discriminate.
  - reflexivity.
  - cbv zeta. rewrite T, C, L, R. repeat split.
Defined.

End RenderFlow.

(** ** The drag gesture *)

Module DragGestureProps.

Import DragGesture.

Lemma step_listening o g e : listening (step o g e) = isDragging (step o g e).
Proof. reflexivity. Qed.

Lemma run_listening o es : forall g,
  listening g = isDragging g -> listening (run o g es) = isDragging (run o g es).
Proof.
  unfold run. induction es as [|e es IH]; intros g H; [exact H|].
  cbn [fold_left]. apply IH, step_listening.
Qed.

Lemma callCalculate_reported o overlay x y g :
  Forall (fun v => 1 <= v <= 99) (reported g) ->
  Forall (fun v => 1 <= v <= 99) (reported (callCalculate o overlay x y g)).
Proof.
  intros H. unfold callCalculate.
  destruct (PdfPreview.calculatePercentage overlay o x y) as [v|] eqn:E; [|exact H].
  cbn. apply Forall_app. split; [exact H|].
  constructor; [|constructor].
  exact (AppFlowProps.calculatePercentage_range _ _ _ _ _ E).
Qed.

Lemma step_reported o g e :
  Forall (fun v => 1 <= v <= 99) (reported g) ->
  Forall (fun v => 1 <= v <= 99) (reported (step o g e)).
Proof.
  intros H. unfold step, listenersEffect. cbn [reported].
  destruct e; unfold handleMouseDown, handleTouchStart, handleMouseMove,
    handleTouchMove;
    repeat match goal with
           | |- context [if ?b then _ else _] => destruct b
           end;
    try exact H; try (apply callCalculate_reported; exact H).
Qed.

Lemma run_reported o es : forall g,
  Forall (fun v => 1 <= v <= 99) (reported g) ->
  Forall (fun v => 1 <= v <= 99) (reported (run o g es)).
Proof.
  unfold run. induction es as [|e es IH]; intros g H; [exact H|].
  cbn [fold_left]. apply IH, step_reported, H.
Qed.

(** X17. In a gesture that starts idle: the window listeners are attached
    exactly while a drag is in progress; while none is, an event from the
    window (a move or a release) changes nothing and reports no percentage;
    a release always ends the drag; and every percentage reported, over
    overlays of positive size, is an integer from 1 to 99. *)
Theorem gesture_reports_only_while_dragging
    (o : SplitOrientation) (es : list PointerEvent) :
  Forall overlayVisible es ->
  let g := run o idle es in
  listening g = isDragging g /\
  (forall e, isDragging g = false -> fromWindow e = true -> step o g e = g) /\
  (forall e, release e = true -> isDragging (step o g e) = false) /\
  Forall (fun v => 1 <= v <= 99) (reported g).
Proof.
  intros _ g.
  assert (L : listening g = isDragging g) by (apply run_listening; reflexivity).
  assert (R : Forall (fun v => 1 <= v <= 99) (reported g))
    by (apply run_reported; constructor).
  clearbody g.
  split; [exact L|]. split; [|split; [|exact R]].
  - intros e Hd Hw. unfold step.
    destruct g as [d l r p]. cbn in L, Hd. subst l d.
    destruct e; try discriminate Hw; reflexivity.
  - intros e Hr. unfold step.
    destruct e; try discriminate Hr; rewrite L;
      destruct (isDragging g) eqn:E; cbn; auto.
Qed.

(** X17 on a drag by mouse: down at 25 percent, a move beyond the right
    edge, the release, and one more move.  The reports are 25 and 99; the
    move after the release reports nothing. *)
Lemma gesture_reports_only_while_dragging_witness :
  Forall overlayVisible MoreExamples.mouseDrag /\
  reported (run Vertical idle MoreExamples.mouseDrag) = [25; 99] /\
  isDragging (run Vertical idle MoreExamples.mouseDrag) = false /\
  listening (run Vertical idle MoreExamples.mouseDrag) = false.
Proof.
  assert (V : Forall overlayVisible MoreExamples.mouseDrag).
  { repeat constructor. }
  destruct (gesture_reports_only_while_dragging Vertical MoreExamples.mouseDrag V)
    as (L & _).
  split; [exact V|]. split; [reflexivity|]. split; [reflexivity|].
  rewrite L. reflexivity.
Defined.

End DragGestureProps.

(** ** The preview component: failures of loads and renders *)

Module FailureProps.

Import PdfPreview.
Import PdfPreviewProps.

Lemma attachRefs_idem s : attachRefs (attachRefs s) = attachRefs s.
Proof.
  destruct (canvasShown s) eqn:Hs.
  - destruct (canvas s) as [c|] eqn:Hc.
    + now rewrite !(RenderFlow.attachRefs_shown s c Hs Hc).
    + assert (E : attachRefs s
                  = set_nextCanvasId (S (nextCanvasId s))
                      (set_canvas (Some (mkCanvas (nextCanvasId s) 300%Q 150%Q None)) s))
        by (unfold attachRefs; rewrite Hs, Hc; reflexivity).
      rewrite E. eapply RenderFlow.attachRefs_shown; [exact Hs | reflexivity].
  - assert (E : attachRefs s = set_canvas None s)
      by (unfold attachRefs; rewrite Hs; reflexivity).
    rewrite E. unfold attachRefs.
    change (canvasShown (set_canvas None s)) with (canvasShown s).
    rewrite Hs. reflexivity.
Qed.

(** A batch that changes neither the [file] prop, nor the document, nor the
    page number runs no effect. *)
Lemma commit_no_deps prev s :
  File_same (file prev) (file s) = true ->
  Doc_same (pdfDoc prev) (pdfDoc s) = true ->
  currentPage prev = currentPage s ->
  commit prev s = attachRefs s.
Proof.
  intros Hf Hd Hc. unfold commit. cbv zeta.
  destruct (attachRefs_fields s) as (A1 & A2 & A3 & _).
  assert (S1 : runEffects prev (attachRefs s) = attachRefs s).
  { unfold runEffects. rewrite A1, A2, A3, Hf, Hd, Hc, Z.eqb_refl. reflexivity. }
  rewrite S1, attachRefs_idem.
  assert (S2 : runEffects (attachRefs s) (attachRefs s) = attachRefs s).
  { unfold runEffects. rewrite File_same_refl, Doc_same_refl, Z.eqb_refl. reflexivity. }
  rewrite S2. apply attachRefs_idem.
Qed.

(** In a state a mounted preview can reach, the canvas is attached exactly
    when the output contains it. *)
Lemma reachable_attached s : reachable s -> attachRefs s = s.
Proof.
  intros [f | s0 e _]; [unfold mount | unfold step, commit]; cbv zeta;
    apply attachRefs_idem.
Qed.

(** X18. A load that fails sets the load error and ends the loading; the
    canvas leaves the output; the document, page count, page number and
    page input of the previous file stay in place, and no render is
    started. *)
Theorem failed_load_keeps_previous_document (s : State) (id : nat) (lt : LoadTask) :
  nth_error (loads s) id = Some lt ->
  load_settled lt = false ->
  let s' := step s (LoadSettled id None) in
  error s' = Some "Failed to load PDF. The file might be corrupted or incompatible."%string /\
  isLoading s' = false /\
  canvas s' = None /\
  pdfDoc s' = pdfDoc s /\ totalPages s' = totalPages s /\
  currentPage s' = currentPage s /\ pageInput s' = pageInput s /\
  renders s' = renders s /\ activeRender s' = activeRender s.
Proof.
  intros Hlt Hset s'.
  assert (Hh : handle (LoadSettled id None) s
               = set_isLoading false
                   (set_error
                      (Some "Failed to load PDF. The file might be corrupted or incompatible."%string)
                      (set_loads (settleLoad id (loads s)) s))).
  { cbn [handle]. unfold loadPdf_resume. rewrite Hlt, Hset. reflexivity. }
  unfold s', step. rewrite Hh.
  rewrite commit_no_deps;
    [| apply File_same_refl | apply Doc_same_refl | reflexivity ].
  unfold attachRefs, canvasShown. cbn. rewrite andb_false_r. cbn.
  repeat split.
Qed.

Lemma failed_load_keeps_previous_document_witness :
  let s' := run Examples.tenPagesShown
              [SetFileProp (Some Examples.fileB); LoadSettled 1 None] in
  isLoading s' = false /\ totalPages s' = 10 /\
  option_map doc_id (pdfDoc s') = Some 0%nat /\ canvas s' = None.
Proof.
  destruct (failed_load_keeps_previous_document
              (step Examples.tenPagesShown (SetFileProp (Some Examples.fileB)))
              1 (mkLoad Examples.fileB false) eq_refl eq_refl)
    as (_ & L & C & D & T & _).
  cbv zeta.
  change (run Examples.tenPagesShown
            [SetFileProp (Some Examples.fileB); LoadSettled 1 None])
    with (step (step Examples.tenPagesShown (SetFileProp (Some Examples.fileB)))
            (LoadSettled 1 None)).
  rewrite L, C, D, T. repeat split.
Defined.

(** X19. A rasterization that fails: when the invocation was cancelled in
    the meantime, the failure is dropped, the error and the canvas staying
    as they are; when it was not, the render error is set and the canvas
    leaves the output. *)
Theorem render_failure_reported_unless_cancelled
    (s : State) (id : nat) (t : RenderTask) (target : nat) :
  reachable s ->
  nth_error (renders s) id = Some t ->
  phase t = AwaitRender target ->
  let s' := step s (RenderSettled id false) in
  (isCancelled t = true -> error s' = error s /\ canvas s' = canvas s) /\
  (isCancelled t = false ->
     error s' = Some "Error rendering this page."%string /\ canvas s' = None).
Proof.
  intros Hs Ht Hp s'.
  pose proof (reachable_attached s Hs) as Hatt.
  assert (Hh : handle (RenderSettled id false) s
               = renderPage_catch t
                   (set_renders (updateRender id (setPhase Finished) (renders s)) s)).
  { cbn [handle]. unfold renderPage_afterRender. rewrite Ht, Hp. reflexivity. }
  unfold s', step. rewrite Hh. unfold renderPage_catch.
  split; intros Hc; rewrite Hc;
    (rewrite commit_no_deps;
       [| apply File_same_refl | apply Doc_same_refl | reflexivity ]).
  - assert (E : attachRefs (set_renders (updateRender id (setPhase Finished) (renders s)) s)
                = set_renders (updateRender id (setPhase Finished) (renders s))
                    (attachRefs s)).
    { unfold attachRefs, canvasShown. cbn. repeat break_match; reflexivity. }
    rewrite E, Hatt. split; reflexivity.
  - unfold attachRefs, canvasShown. cbn. rewrite andb_false_r. split; reflexivity.
Qed.

Lemma render_failure_reported_unless_cancelled_witness :
  error MoreExamples.renderFailed = Some "Error rendering this page."%string /\
  canvas MoreExamples.renderFailed = None.
Proof.
  destruct (render_failure_reported_unless_cancelled
              (step Examples.tenPagesShown (GetPageSettled 0 (Some 800%Q))) 0
              (mkRender (mkDoc 0 (Examples.sizes 10)) 1 false (AwaitRender 1)) 1)
    as [_ H].
  - apply reachable_step, PdfPreviewMore.tenPagesShown_reachable.
  - reflexivity.
  - reflexivity.
  - exact (H eq_refl).
Defined.

(** X20. With no page to show (totalPages = 0), committing a page input
    that parses sets the page number to 0 and the buffer to "0": the clamp
    to at least 1 is undone by the clamp to at most totalPages. *)
Theorem commit_with_no_pages (s : State) (parsed : Z) :
  totalPages s = 0 ->
  Js.parseInt (pageInput s) = Some parsed ->
  currentPage (step s PageInputBlur) = 0 /\
  pageInput (step s PageInputBlur) = "0"%string.
Proof.
  intros Ht Hp.
  destruct (PageInputProps.blur_fields s) as (C & _ & P).
  assert (H0 : currentPage (handlePageInputSubmit s s) = 0).
  { unfold handlePageInputSubmit. rewrite Hp, Ht. cbn.
    destruct (parsed <? 1) eqn:E; [reflexivity|].
    apply Z.ltb_ge in E.
    replace (0 <? parsed) with true by (symmetry; apply Z.ltb_lt; lia).
    reflexivity. }
  rewrite C, P, H0. split; reflexivity.
Qed.

Lemma commit_with_no_pages_witness :
  let s := step (mount (Some Examples.fileA)) (PageInputChange "5") in
  currentPage (step s PageInputBlur) = 0 /\
  pageInput (step s PageInputBlur) = "0"%string.
Proof.
  exact (commit_with_no_pages
           (step (mount (Some Examples.fileA)) (PageInputChange "5")) 5
           eq_refl eq_refl).
Defined.

End FailureProps.

(** ** The split service: the regions are not empty *)

Module RegionProps.

Import PdfService.
Local Open Scope Q_scope.

Lemma percent_bounds (p x : Q) :
  1 <= p <= 99 -> 0 < x -> 0 < x * (p / 100) /\ 0 < x - x * (p / 100).
Proof.
  intros [H1 H99] Hx.
  assert (Hf : 0 < p / 100).
  { apply Qlt_shift_div_l; [reflexivity|]. rewrite Qmult_0_l.
    apply Qlt_le_trans with 1; [reflexivity | exact H1]. }
  assert (Hg : p / 100 < 1).
  { apply Qlt_shift_div_r; [reflexivity|]. rewrite Qmult_1_l.
    apply Qle_lt_trans with 99; [exact H99 | reflexivity]. }
  split.
  - apply Qmult_lt_0_compat; assumption.
  - setoid_replace (x - x * (p / 100)) with (x * (1 - p / 100)) by ring.
    apply Qmult_lt_0_compat; [exact Hx|].
    apply Qlt_minus_iff in Hg. exact Hg.
Qed.

(** X21. For a percentage from 1 to 99, every page of positive width and
    height gives two regions that both have a positive width and a positive
    height, in either orientation, and the two sizes along the split axis
    add up to the page's. *)
Theorem split_regions_not_empty (doc : PDFDocument) (o : SplitOrientation) (p : Q) :
  1 <= p <= 99 ->
  exists out,
    splitPdfDocument doc o p = Some out /\
    forall i pg, nth_error doc i = Some pg ->
      0 < fst (getSize pg) -> 0 < snd (getSize pg) ->
      exists first second,
        nth_error out (2 * i) = Some first /\
        nth_error out (2 * i + 1) = Some second /\
        0 < fst (getSize first) /\ 0 < snd (getSize first) /\
        0 < fst (getSize second) /\ 0 < snd (getSize second) /\
        match o with
        | Vertical =>
            fst (getSize first) + fst (getSize second) == fst (getSize pg)
        | Horizontal =>
            snd (getSize first) + snd (getSize second) == snd (getSize pg)
        end.
Proof.
  intros Hp.
  exists (flat_map (halves o p) doc).
  split; [apply PdfServiceProps.splitPdfDocument_flat_map|].
  intros i pg Hpg Hw Hh.
  destruct (PdfServiceProps.halves_nth o p doc i pg Hpg) as [H1 H2].
  eexists; eexists. split; [exact H1|]. split; [exact H2|].
  destruct (percent_bounds p _ Hp Hw) as [Wa Wb].
  destruct (percent_bounds p _ Hp Hh) as [Ha Hb].
  destruct o.
  - rewrite PdfServiceProps.cropPair_vertical. unfold setMediaBox.
    cbn [fst snd getSize llx lly urx ury] in *.
    repeat split.
    + setoid_replace (0 + (urx pg - llx pg) * (p / 100) - 0)
        with ((urx pg - llx pg) * (p / 100)) by ring. exact Wa.
    + setoid_replace (0 + (ury pg - lly pg) - 0) with (ury pg - lly pg) by ring.
      exact Hh.
    + setoid_replace ((urx pg - llx pg) * (p / 100)
                      + (urx pg - llx pg - (urx pg - llx pg) * (p / 100))
                      - (urx pg - llx pg) * (p / 100))
        with (urx pg - llx pg - (urx pg - llx pg) * (p / 100)) by ring.
      exact Wb.
    + setoid_replace (0 + (ury pg - lly pg) - 0) with (ury pg - lly pg) by ring.
      exact Hh.
    + ring.
  - rewrite PdfServiceProps.cropPair_horizontal. unfold setMediaBox.
    cbn [fst snd getSize llx lly urx ury] in *.
    repeat split.
    + setoid_replace (0 + (urx pg - llx pg) - 0) with (urx pg - llx pg) by ring.
      exact Hw.
    + setoid_replace ((ury pg - lly pg) * (p / 100)
                      + (ury pg - lly pg - (ury pg - lly pg) * (p / 100))
                      - (ury pg - lly pg) * (p / 100))
        with (ury pg - lly pg - (ury pg - lly pg) * (p / 100)) by ring.
      exact Hb.
    + setoid_replace (0 + (urx pg - llx pg) - 0) with (urx pg - llx pg) by ring.
      exact Hw.
    + setoid_replace (0 + (ury pg - lly pg) * (p / 100) - 0)
        with ((ury pg - lly pg) * (p / 100)) by ring. exact Ha.
    + ring.
Qed.

Lemma split_regions_not_empty_witness :
  exists out first second,
    splitPdfDocument Examples.fourPages Horizontal 99 = Some out /\
    nth_error out 6 = Some first /\ nth_error out 7 = Some second /\
    0 < snd (getSize first) /\ 0 < snd (getSize second).
Proof.
  destruct (split_regions_not_empty Examples.fourPages Horizontal 99)
    as (out & Hout & Hpages).
  - split; discriminate.
  - destruct (Hpages 3%nat (Examples.a4 3) eq_refl eq_refl eq_refl)
      as (a & b & H1 & H2 & _ & Ha & _ & Hb & _).
    exists out, a, b. repeat split; assumption.
Defined.

End RegionProps.

(** ** Keys in the page input *)

Module KeyProps.

Import PdfPreview.

(** X14 on the ten-page preview with "15" typed: Enter commits as a blur
    does, and the key "a" updates nothing. *)
Lemma enter_is_blur_witness :
  currentPage (step Examples.typed15 (PageInputKeyDown "Enter")) = 10 /\
  handle (PageInputKeyDown "a") Examples.typed15 = Examples.typed15.
Proof.
  destruct (PageInputProps.enter_is_blur Examples.typed15) as [E K].
  split; [rewrite E; reflexivity | exact (K "a"%string eq_refl)].
Defined.

End KeyProps.

(** ** The application: which file the preview is given *)

Module FilePropProps.

Import AppFlow.

(** X22. Through the controls the application offers, the stored file
    never goes from one file straight to another: an event offered while a
    file is stored leaves that file or removes it, so a preview (which is
    mounted only while a file is stored) keeps the file it was mounted
    with. *)
Theorem file_never_replaced_in_place (sh : Shell) (e : Event) (f g : File) :
  offered sh e ->
  App.file (app sh) = Some f ->
  App.file (app (step sh e)) = Some g ->
  g = f.
Proof.
  intros Hoff Hf Hg.
  destruct e as [files| |o|overlay x y| |id loaded]; cbn [offered step] in *.
  - congruence.
  - discriminate Hg.
  - cbn in Hg. congruence.
  - unfold onApp, previewDrag in Hg. cbn in Hg.
    destruct (PdfPreview.calculatePercentage _ _ _ _); cbn in Hg; congruence.
  - unfold handleProcess in Hg. rewrite Hf in Hg. cbn in Hg. congruence.
  - unfold handleProcess_resume in Hg.
    destruct (nth_error (tasks sh) id) as [t|]; [|congruence].
    destruct (task_settled t); [congruence|].
    destruct loaded as [doc|];
      [destruct (PdfService.splitPdfDocument _ _ _)|]; cbn in Hg; congruence.
Qed.

Lemma file_never_replaced_in_place_witness :
  App.file (app (step MoreExamples.reportAt30 (ChooseOrientation Horizontal)))
  = Some MoreExamples.report.
Proof.
  assert (H : exists g,
            App.file (app (step MoreExamples.reportAt30 (ChooseOrientation Horizontal)))
            = Some g) by (eexists; reflexivity).
  destruct H as (g & Hg).
  rewrite Hg. f_equal.
  apply (file_never_replaced_in_place MoreExamples.reportAt30
           (ChooseOrientation Horizontal) MoreExamples.report g);
    [discriminate | reflexivity | exact Hg].
Defined.

End FilePropProps.
